(** * The DeepSeek content generator: request and response adapters

    A shallow embedding of [packages/core/src/core/contentGenerator.ts]:
    the factory [createContentGenerator] and the class
    [DeepSeekContentGenerator] that drives an OpenAI-compatible chat
    completion service behind the legacy [ContentGenerator] interface.

    Strings are sequences of code units and [String.length] counts them, as
    the [length] of a JavaScript string does.  An optional property (and a
    property that may hold [null]) is an [option]; in every place where the
    source reads such a property the two are treated alike. *)

From Stdlib Require Import String Ascii List Bool ZArith QArith Qround Lia.
Import ListNotations.
Local Open Scope string_scope.

(** ** The JavaScript operators the adapter relies on *)

Module JS.

(** A string is falsy exactly when it is empty. *)
Definition truthy (s : string) : bool := negb (String.eqb s "").

(** [x || d] where [x] is a string, [null] or [undefined]. *)
Definition or_else (x : option string) (d : string) : string :=
  match x with
  | Some s => if truthy s then s else d
  | None => d
  end.

(** [x || d] where [x] is an object, [null] or [undefined]: an object is
    always truthy. *)
Definition or_object {A : Type} (x : option A) (d : A) : A :=
  match x with
  | Some a => a
  | None => d
  end.

(** [x || undefined]: an empty string becomes [undefined]. *)
Definition or_undefined (x : option string) : option string :=
  match x with
  | Some s => if truthy s then Some s else None
  | None => None
  end.

(** [b && x] read as a condition, with the truthy [x] at hand when it
    holds. *)
Definition and_then (b : bool) (x : option string) : option string :=
  if b then or_undefined x else None.

(** Optional chaining, [o?.f]. *)
Definition chain {A B : Type} (o : option A) (f : A -> option B) : option B :=
  match o with
  | Some a => f a
  | None => None
  end.

(** [xs?.[0]]: the first element, [undefined] on an empty array. *)
Definition first {A : Type} (xs : option (list A)) : option A :=
  chain xs (@hd_error A).

(** [Array.prototype.map] with the index passed to the callback. *)
Fixpoint map_from {A B : Type} (f : A -> nat -> B) (index : nat) (xs : list A)
  : list B :=
  match xs with
  | [] => []
  | x :: rest => f x index :: map_from f (S index) rest
  end.

Definition mapi {A B : Type} (f : A -> nat -> B) (xs : list A) : list B :=
  map_from f 0 xs.

(** [Array.prototype.join]: an [undefined] element is rendered as the empty
    string. *)
Definition join (sep : string) (xs : list (option string)) : string :=
  String.concat sep (map (fun x => or_object x "") xs).

(** [Math.ceil], on the exact quotient. *)
Definition Math_ceil (q : Q) : Z := Qceiling q.

(** [new Array(n).fill(v)]. *)
Definition Array_fill {A : Type} (n : nat) (v : A) : list A := repeat v n.

End JS.

(** ** Values of type [any]

    The adapter looks at a content item in two ways only: [typeof] tells a
    string from the rest, and the rest goes through [JSON.stringify].  The
    values that are not strings are therefore kept abstract ([object]), and
    [JSON.stringify] on them is a parameter of the development; it answers
    [undefined] ([None]) for a value that has no JSON form. *)

Inductive any (object : Type) : Type :=
| Undefined
| Str (s : string)
| Obj (o : object).
Arguments Undefined {object}.
Arguments Str {object} s.
Arguments Obj {object} o.

(** ** The chat-completion types of the OpenAI SDK *)

Module CompletionUsage.
Record t : Type := mk {
  prompt_tokens : Z;
  completion_tokens : Z;
  total_tokens : Z
}.
End CompletionUsage.

Module ChatCompletionMessage.
Record t : Type := mk {
  role : option string;
  content : option string
}.
End ChatCompletionMessage.

Module Choice.
Record t : Type := mk {
  index : Z;
  message : option ChatCompletionMessage.t;
  finish_reason : option string
}.
End Choice.

Module ChatCompletion.
Record t : Type := mk {
  id : string;
  object : string;
  created : Z;
  model : string;
  choices : option (list Choice.t);
  usage : option CompletionUsage.t
}.
End ChatCompletion.

Module Delta.
Record t : Type := mk {
  role : option string;
  content : option string
}.
End Delta.

Module ChunkChoice.
Record t : Type := mk {
  index : Z;
  delta : option Delta.t;
  finish_reason : option string
}.
End ChunkChoice.

Module ChatCompletionChunk.
Record t : Type := mk {
  id : string;
  created : Z;
  model : string;
  choices : option (list ChunkChoice.t);
  usage : option CompletionUsage.t
}.
End ChatCompletionChunk.

Module ChatCompletionMessageParam.
Record t {object : Type} : Type := mk {
  role : string;
  content : any object
}.
Arguments t : clear implicits.
End ChatCompletionMessageParam.

Module ChatCompletionCreateParams.
Record t {object : Type} : Type := mk {
  messages : list (ChatCompletionMessageParam.t object);
  model : string;
  max_tokens : option Z;
  temperature : option Q;
  stream : option bool
}.
Arguments t : clear implicits.

(** [{ ...params, stream: b }] *)
Definition with_stream {object : Type} (p : t object) (b : bool) : t object :=
  mk object (messages p) (model p) (max_tokens p) (temperature p) (Some b).
End ChatCompletionCreateParams.

(** ** The legacy Gemini types *)

Module ResponseMessage.
Record t : Type := mk {
  content : string;
  role : string
}.
End ResponseMessage.

Module ResponseChoice.
Record t : Type := mk {
  message : ResponseMessage.t;
  finish_reason : option string
}.
End ResponseChoice.

Module GenerateContentResponse.
Record t {object : Type} : Type := mk {
  text : string;
  choices : option (list ResponseChoice.t);
  data : ChatCompletion.t;
  functionCalls : list (any object);
  executableCode : option (any object);
  codeExecutionResult : option (any object)
}.
Arguments t : clear implicits.
End GenerateContentResponse.

Module GenerateContentParameters.
Record t {object : Type} : Type := mk {
  contents : option (list (any object));
  model : option string;
  messages : option (list (ChatCompletionMessageParam.t object));
  max_tokens : option Z;
  temperature : option Q
}.
Arguments t : clear implicits.

(** The same request with the [model] property left out. *)
Definition without_model {object : Type} (r : t object) : t object :=
  mk object (contents r) None (messages r) (max_tokens r) (temperature r).
End GenerateContentParameters.

Module CountTokensParameters.
Record t {object : Type} : Type := mk {
  model : string;
  contents : option (list (any object))
}.
Arguments t : clear implicits.
End CountTokensParameters.

Module CountTokensResponse.
Record t : Type := mk { totalTokens : Z }.
End CountTokensResponse.

Module EmbedContentParameters.
Record t {object : Type} : Type := mk {
  model : string;
  content : any object
}.
Arguments t : clear implicits.
End EmbedContentParameters.

Module EmbedContentResponse.
Record t : Type := mk { embedding : list Z }.
End EmbedContentResponse.

(** ** Configuration, clients and effects *)

Inductive AuthType : Type :=
| USE_DEEPSEEK
| LOGIN_WITH_GOOGLE
| USE_GEMINI
| USE_VERTEX_AI
| CLOUD_SHELL.

Module AuthTypes.

(** The string each member of the enum stands for. *)
Definition value (a : AuthType) : string :=
  match a with
  | USE_DEEPSEEK => "deepseek-api-key"
  | LOGIN_WITH_GOOGLE => "oauth-personal"
  | USE_GEMINI => "gemini-api-key"
  | USE_VERTEX_AI => "vertex-ai"
  | CLOUD_SHELL => "cloud-shell"
  end.

Definition eqb (a b : AuthType) : bool :=
  match a, b with
  | USE_DEEPSEEK, USE_DEEPSEEK
  | LOGIN_WITH_GOOGLE, LOGIN_WITH_GOOGLE
  | USE_GEMINI, USE_GEMINI
  | USE_VERTEX_AI, USE_VERTEX_AI
  | CLOUD_SHELL, CLOUD_SHELL => true
  | _, _ => false
  end.

(** [x === AuthType.A] for an [x] that may be [undefined]. *)
Definition strictEq (x : option AuthType) (a : AuthType) : bool :=
  match x with
  | Some b => eqb b a
  | None => false
  end.

(** How a template literal renders [x]. *)
Definition interpolate (x : option AuthType) : string :=
  match x with
  | Some a => value a
  | None => "undefined"
  end.

End AuthTypes.

Definition DEFAULT_DEEPSEEK_MODEL : string := "deepseek-chat".

Module Process.
Record t : Type := mk {
  env : string -> option string;
  version : string;
  platform : string;
  arch : string
}.
End Process.

Module ContentGeneratorConfig.
Record t : Type := mk {
  model : string;
  apiKey : option string;
  baseURL : option string;
  authType : option AuthType;
  proxy : option string
}.

Definition with_apiKey (c : t) (k : string) : t :=
  mk (model c) (Some k) (baseURL c) (authType c) (proxy c).
End ContentGeneratorConfig.

(** The options an [OpenAI] client is built from stand for the client. *)
Module OpenAI.
Record t : Type := mk {
  apiKey : string;
  baseURL : option string;
  defaultHeaders : list (string * string)
}.
End OpenAI.

Module HttpOptions.
Record t : Type := mk { headers : list (string * string) }.
End HttpOptions.

Module DeepSeekContentGenerator.
Record t {Config : Type} : Type := mk {
  openai : OpenAI.t;
  config : Config;
  model : string
}.
Arguments t : clear implicits.
End DeepSeekContentGenerator.

Inductive Error : Type := mkError (message : string).

Definition message (e : Error) : string :=
  match e with mkError m => m end.

(** A computation leaves a trace of the events it caused and then either
    throws or returns. *)
Module Effect.

Definition t (Event A : Type) : Type := (list Event * (Error + A))%type.

Definition ret {Event A : Type} (a : A) : t Event A := ([], inr a).

Definition throw {Event A : Type} (e : Error) : t Event A := ([], inl e).

Definition bind {Event A B : Type} (m : t Event A) (f : A -> t Event B)
  : t Event B :=
  match m with
  | (trace, inl e) => (trace, inl e)
  | (trace, inr a) =>
      match f a with
      | (trace', r) => ((trace ++ trace')%list, r)
      end
  end.

(** An event followed by what the outside world answers to it. *)
Definition perform {Event A : Type} (ev : Event) (answer : Error + A)
  : t Event A := ([ev], answer).

Definition trace {Event A : Type} (m : t Event A) : list Event := fst m.

Definition outcome {Event A : Type} (m : t Event A) : Error + A := snd m.

End Effect.

Notation "x <- m ;; k" := (Effect.bind m (fun x => k))
  (at level 61, m at next level, right associativity).

(** ** A small universe of values for the examples

    Five values that are not strings, with the text [JSON.stringify] gives
    for each; a function has no JSON form. *)

Module Sample.

Inductive value : Type :=
| Null
| True
| EmptyArray
| EmptyObject
| AFunction.

Definition stringify (v : value) : option string :=
  match v with
  | Null => Some "null"
  | True => Some "true"
  | EmptyArray => Some "[]"
  | EmptyObject => Some "{}"
  | AFunction => None
  end.

Definition process : Process.t :=
  Process.mk (fun _ => None) "v20.11.0" "linux" "x64".

(** A request with three content items and no messages. *)
Definition contentsRequest : GenerateContentParameters.t value :=
  GenerateContentParameters.mk value
    (Some [Str "hi"; Obj EmptyObject; Str "bye"]) None None None None.

(** A request with explicit messages, and contents that are then ignored. *)
Definition messagesRequest : GenerateContentParameters.t value :=
  GenerateContentParameters.mk value
    (Some [Str "ignored"]) (Some "deepseek-reasoner")
    (Some [ChatCompletionMessageParam.mk value "system" (Str "Be brief.");
           ChatCompletionMessageParam.mk value "user" (Str "Hello")])
    (Some 50%Z) None.

(** A request whose model is the empty string. *)
Definition emptyModelRequest : GenerateContentParameters.t value :=
  GenerateContentParameters.mk value None (Some "") None None None.

Definition configWithoutKey : ContentGeneratorConfig.t :=
  ContentGeneratorConfig.mk "deepseek-chat" None
    (Some "https://api.deepseek.com") (Some USE_DEEPSEEK) None.

Definition configWithKey : ContentGeneratorConfig.t :=
  ContentGeneratorConfig.with_apiKey configWithoutKey "sk-test".

Definition vertexConfig : ContentGeneratorConfig.t :=
  ContentGeneratorConfig.mk "deepseek-chat" None
    (Some "https://api.deepseek.com") (Some USE_VERTEX_AI) None.

Definition client : OpenAI.t :=
  OpenAI.mk "sk-test" (Some "https://api.deepseek.com")
    [("User-Agent", "DeepSeekCLI/v20.11.0 (linux; x64)")].

Definition generator : DeepSeekContentGenerator.t unit :=
  DeepSeekContentGenerator.mk unit client tt "deepseek-chat".

(** A service that answers every request with one choice saying "Hi". *)
Definition completion : ChatCompletion.t :=
  ChatCompletion.mk "cmpl-1" "chat.completion" 1700000000 "deepseek-chat"
    (Some [Choice.mk 0
             (Some (ChatCompletionMessage.mk (Some "assistant") (Some "Hi")))
             (Some "stop")])
    (Some (CompletionUsage.mk 5 1 6)).

(** The same answer streamed: a role, then the text, then the finish signal
    in a chunk whose delta is empty. *)
Definition chunks : list ChatCompletionChunk.t :=
  [ChatCompletionChunk.mk "cmpl-1" 1700000000 "deepseek-chat"
     (Some [ChunkChoice.mk 0 (Some (Delta.mk (Some "assistant") (Some ""))) None])
     None;
   ChatCompletionChunk.mk "cmpl-1" 1700000000 "deepseek-chat"
     (Some [ChunkChoice.mk 0 (Some (Delta.mk None (Some "Hi"))) None])
     None;
   ChatCompletionChunk.mk "cmpl-1" 1700000000 "deepseek-chat"
     (Some [ChunkChoice.mk 0 (Some (Delta.mk None None)) (Some "stop")])
     (Some (CompletionUsage.mk 5 1 6))].

Definition completions (_ : OpenAI.t) (_ : ChatCompletionCreateParams.t value)
  : Error + ChatCompletion.t := inr completion.

Definition completionsStream (_ : OpenAI.t)
    (_ : ChatCompletionCreateParams.t value)
  : Error + list ChatCompletionChunk.t := inr chunks.

Definition createCodeAssist (_ : HttpOptions.t) (_ : option AuthType)
    (_ : unit) (_ : option string) : Error + unit := inr tt.

(** A service that cannot be reached. *)
Definition refused : Error := mkError "connect ECONNREFUSED".

Definition completionsRefused (_ : OpenAI.t)
    (_ : ChatCompletionCreateParams.t value)
  : Error + ChatCompletion.t := inl refused.

Definition completionsStreamRefused (_ : OpenAI.t)
    (_ : ChatCompletionCreateParams.t value)
  : Error + list ChatCompletionChunk.t := inl refused.

(** A request that names its own model. *)
Definition reasonerRequest : GenerateContentParameters.t value :=
  GenerateContentParameters.mk value
    (Some [Str "Why?"]) (Some "deepseek-reasoner") None None (Some (7 # 10)).

Definition configWithEmptyKey : ContentGeneratorConfig.t :=
  ContentGeneratorConfig.with_apiKey configWithoutKey "".

Definition googleConfig : ContentGeneratorConfig.t :=
  ContentGeneratorConfig.mk "deepseek-chat" None
    (Some "https://api.deepseek.com") (Some LOGIN_WITH_GOOGLE) None.

(** An environment with both keys set. *)
Definition processWithKeys : Process.t :=
  Process.mk
    (fun name =>
       if String.eqb name "DEEPSEEK_API_KEY" then Some "sk-test"
       else if String.eqb name "GEMINI_API_KEY" then Some "g-test"
       else None)
    "v20.11.0" "linux" "x64".

(** A session that names no model and no proxy. *)
Definition getModel (_ : unit) : string := "".

Definition getProxy (_ : unit) : option string := None.

End Sample.

(** ** The pure part of [DeepSeekContentGenerator] *)

Section Adapter.

Context {object : Type}.

(** [JSON.stringify] on the values that are not strings. *)
Variable JSON_stringify : object -> option string.

(** [typeof content === 'string' ? content : JSON.stringify(content)] *)
Definition stringOrJSON (content : any object) : option string :=
  match content with
  | Str s => Some s
  | Undefined => None
  | Obj o => JSON_stringify o
  end.

(** The same value, back at type [any]. *)
Definition ofText (x : option string) : any object :=
  match x with
  | Some s => Str s
  | None => Undefined
  end.

(** [this.model] is all of the generator's state that the conversion
    reads. *)
Definition convertGeminiToOpenAI (this_model : string)
    (request : GenerateContentParameters.t object)
  : ChatCompletionCreateParams.t object :=
  let messages :=
    match GenerateContentParameters.messages request with
    | Some ms => ms
    | None =>
        match GenerateContentParameters.contents request with
        | Some cs =>
            JS.mapi
              (fun content index =>
                 ChatCompletionMessageParam.mk object
                   (if Nat.eqb (index mod 2) 0 then "user" else "assistant")
                   (ofText (stringOrJSON content)))
              cs
        | None => [ChatCompletionMessageParam.mk object "user" (Str "Hello")]
        end
    end in
  ChatCompletionCreateParams.mk object
    messages
    (JS.or_else (GenerateContentParameters.model request) this_model)
    (GenerateContentParameters.max_tokens request)
    (GenerateContentParameters.temperature request)
    None.

Definition convertOpenAIToGemini (response : ChatCompletion.t)
  : GenerateContentResponse.t object :=
  GenerateContentResponse.mk object
    (JS.or_else
       (JS.chain
          (JS.chain (JS.first (ChatCompletion.choices response)) Choice.message)
          ChatCompletionMessage.content)
       "")
    (option_map
       (map (fun choice =>
               ResponseChoice.mk
                 (ResponseMessage.mk
                    (JS.or_else
                       (JS.chain (Choice.message choice)
                          ChatCompletionMessage.content)
                       "")
                    (JS.or_else
                       (JS.chain (Choice.message choice)
                          ChatCompletionMessage.role)
                       "assistant"))
                 (Choice.finish_reason choice)))
       (ChatCompletion.choices response))
    response
    []
    None
    None.

(** The [completion] that the loop body of [convertStreamToGenerator]
    builds from one chunk. *)
Definition completionOfChunk (chunk : ChatCompletionChunk.t) : ChatCompletion.t :=
  ChatCompletion.mk
    (ChatCompletionChunk.id chunk)
    "chat.completion"
    (ChatCompletionChunk.created chunk)
    (ChatCompletionChunk.model chunk)
    (Some
       (JS.or_object
          (option_map
             (map (fun choice =>
                     Choice.mk
                       (ChunkChoice.index choice)
                       (Some
                          (ChatCompletionMessage.mk
                             (Some
                                (JS.or_else
                                   (JS.chain (ChunkChoice.delta choice) Delta.role)
                                   "assistant"))
                             (Some
                                (JS.or_else
                                   (JS.chain (ChunkChoice.delta choice) Delta.content)
                                   ""))))
                       (ChunkChoice.finish_reason choice)))
             (ChatCompletionChunk.choices chunk))
          []))
    (Some
       (JS.or_object (ChatCompletionChunk.usage chunk)
          (CompletionUsage.mk 0 0 0))).

(** The async generator [convertStreamToGenerator(stream)].  Its state is
    what is left of the stream; one call of [next] runs the loop body once,
    up to the [yield], and answers [None] when the stream has ended. *)
Definition AsyncGenerator : Type := list ChatCompletionChunk.t.

Definition convertStreamToGenerator (stream : list ChatCompletionChunk.t)
  : AsyncGenerator := stream.

Definition next (g : AsyncGenerator)
  : option (GenerateContentResponse.t object * AsyncGenerator) :=
  match g with
  | [] => None
  | chunk :: rest => Some (convertOpenAIToGemini (completionOfChunk chunk), rest)
  end.

(** A consumer that pulls at most [fuel] times, as [for await (const r of
    generator)] does: [Some] of the fragments in the order they were
    yielded once the generator has answered that it is done, [None] when
    the fuel ran out first. *)
Fixpoint drain (fuel : nat) (g : AsyncGenerator)
  : option (list (GenerateContentResponse.t object)) :=
  match fuel with
  | O => None
  | S fuel' =>
      match next g with
      | None => Some []
      | Some (r, g') => option_map (cons r) (drain fuel' g')
      end
  end.

Definition countTokens (request : CountTokensParameters.t object)
  : CountTokensResponse.t :=
  let totalContent :=
    match CountTokensParameters.contents request with
    | Some cs => JS.join " " (map stringOrJSON cs)
    | None => ""
    end in
  let estimatedTokens :=
    JS.Math_ceil (inject_Z (Z.of_nat (String.length totalContent)) / 4) in
  CountTokensResponse.mk estimatedTokens.

Definition embedContent (request : EmbedContentParameters.t object)
  : EmbedContentResponse.t :=
  EmbedContentResponse.mk (JS.Array_fill 1536 0%Z).


(** ** The factory and the calls that reach the transport *)

Context {Config CodeAssist : Type}.

(** [Config.getModel] and [Config.getProxy]. *)
Variable getModel : Config -> string.
Variable getProxy : Config -> option string.

(** [createCodeAssistContentGenerator], of [code_assist/codeAssist.js]. *)
Variable createCodeAssistContentGenerator :
  HttpOptions.t -> option AuthType -> Config -> option string ->
  Error + CodeAssist.

(** [openai.chat.completions.create], without and with [stream: true]:
    what the service answers to a request. *)
Variable completions :
  OpenAI.t -> ChatCompletionCreateParams.t object -> Error + ChatCompletion.t.
Variable completionsStream :
  OpenAI.t -> ChatCompletionCreateParams.t object ->
  Error + list ChatCompletionChunk.t.

Inductive Event : Type :=
| NewOpenAI (options : OpenAI.t)
| CreateCodeAssist (httpOptions : HttpOptions.t) (authType : option AuthType)
    (gcConfig : Config) (sessionId : option string)
| CompletionsCreate (client : OpenAI.t)
    (body : ChatCompletionCreateParams.t object).

Inductive ContentGenerator : Type :=
| DeepSeek (g : DeepSeekContentGenerator.t Config)
| Logging (wrapped : CodeAssist) (gcConfig : Config).

Definition createContentGeneratorConfig (process : Process.t)
    (config : Config) (authType : option AuthType)
  : ContentGeneratorConfig.t :=
  let deepSeekApiKey := JS.or_undefined (Process.env process "DEEPSEEK_API_KEY") in
  let effectiveModel :=
    JS.or_else (Some (getModel config)) DEFAULT_DEEPSEEK_MODEL in
  let contentGeneratorConfig :=
    ContentGeneratorConfig.mk effectiveModel None
      (Some "https://api.deepseek.com") authType (getProxy config) in
  match JS.and_then (AuthTypes.strictEq authType USE_DEEPSEEK) deepSeekApiKey with
  | Some key => ContentGeneratorConfig.with_apiKey contentGeneratorConfig key
  | None =>
      if AuthTypes.strictEq authType LOGIN_WITH_GOOGLE
         || AuthTypes.strictEq authType CLOUD_SHELL
      then contentGeneratorConfig
      else
        let geminiApiKey :=
          JS.or_undefined (Process.env process "GEMINI_API_KEY") in
        match JS.and_then (AuthTypes.strictEq authType USE_GEMINI) geminiApiKey with
        | Some key => ContentGeneratorConfig.with_apiKey contentGeneratorConfig key
        | None => contentGeneratorConfig
        end
  end.

Definition createContentGenerator (process : Process.t)
    (config : ContentGeneratorConfig.t) (gcConfig : Config)
    (sessionId : option string)
  : Effect.t Event ContentGenerator :=
  let version :=
    JS.or_else (Process.env process "CLI_VERSION") (Process.version process) in
  let userAgent :=
    "DeepSeekCLI/" ++ version ++ " (" ++ Process.platform process ++ "; "
      ++ Process.arch process ++ ")" in
  if AuthTypes.strictEq (ContentGeneratorConfig.authType config) USE_DEEPSEEK then
    match ContentGeneratorConfig.apiKey config with
    | Some key =>
        if JS.truthy key then
          openai <- Effect.perform
                      (NewOpenAI
                         (OpenAI.mk key (ContentGeneratorConfig.baseURL config)
                            [("User-Agent", userAgent)]))
                      (inr
                         (OpenAI.mk key (ContentGeneratorConfig.baseURL config)
                            [("User-Agent", userAgent)])) ;;
          Effect.ret
            (DeepSeek
               (DeepSeekContentGenerator.mk Config openai gcConfig
                  (ContentGeneratorConfig.model config)))
        else
          Effect.throw
            (mkError "DeepSeek API key is required. Please set DEEPSEEK_API_KEY environment variable.")
    | None =>
        Effect.throw
          (mkError "DeepSeek API key is required. Please set DEEPSEEK_API_KEY environment variable.")
    end
  else if AuthTypes.strictEq (ContentGeneratorConfig.authType config) LOGIN_WITH_GOOGLE
          || AuthTypes.strictEq (ContentGeneratorConfig.authType config) CLOUD_SHELL
  then
    let httpOptions := HttpOptions.mk [("User-Agent", userAgent)] in
    wrapped <- Effect.perform
                 (CreateCodeAssist httpOptions
                    (ContentGeneratorConfig.authType config) gcConfig sessionId)
                 (createCodeAssistContentGenerator httpOptions
                    (ContentGeneratorConfig.authType config) gcConfig sessionId) ;;
    Effect.ret (Logging wrapped gcConfig)
  else
    Effect.throw
      (mkError
         ("Error creating contentGenerator: Unsupported authType: "
            ++ AuthTypes.interpolate (ContentGeneratorConfig.authType config))).

(** [this.openai.chat.completions.create(body)] with [stream: false]. *)
Definition create (client : OpenAI.t) (body : ChatCompletionCreateParams.t object)
  : Effect.t Event ChatCompletion.t :=
  Effect.perform (CompletionsCreate client body) (completions client body).

(** The same call with [stream: true]; the stream is the sequence of chunks
    the service will deliver. *)
Definition createStream (client : OpenAI.t)
    (body : ChatCompletionCreateParams.t object)
  : Effect.t Event (list ChatCompletionChunk.t) :=
  Effect.perform (CompletionsCreate client body) (completionsStream client body).

Definition generateContent (this : DeepSeekContentGenerator.t Config)
    (request : GenerateContentParameters.t object) (userPromptId : string)
  : Effect.t Event (GenerateContentResponse.t object) :=
  let openaiRequest :=
    convertGeminiToOpenAI (DeepSeekContentGenerator.model this) request in
  response <- create (DeepSeekContentGenerator.openai this)
                (ChatCompletionCreateParams.with_stream openaiRequest false) ;;
  Effect.ret (convertOpenAIToGemini response).

Definition generateContentStream (this : DeepSeekContentGenerator.t Config)
    (request : GenerateContentParameters.t object) (userPromptId : string)
  : Effect.t Event AsyncGenerator :=
  let openaiRequest :=
    convertGeminiToOpenAI (DeepSeekContentGenerator.model this) request in
  stream <- createStream (DeepSeekContentGenerator.openai this)
              (ChatCompletionCreateParams.with_stream openaiRequest true) ;;
  Effect.ret (convertStreamToGenerator stream).

(** ** The properties the adapter is held to *)

(** The structural invariant of a legacy response: [text] repeats the
    content of the first choice, and is empty when there is none. *)
Definition textMatchesFirstChoice (r : GenerateContentResponse.t object) : Prop :=
  match GenerateContentResponse.choices r with
  | Some (choice :: _) =>
      GenerateContentResponse.text r
      = ResponseMessage.content (ResponseChoice.message choice)
  | Some [] => GenerateContentResponse.text r = ""
  | None => GenerateContentResponse.text r = ""
  end.

(** The text a content item stands for in the token estimate: the string
    itself, or its JSON text, or nothing when it has no JSON text. *)
Definition textForm (content : any object) : string :=
  match content with
  | Str s => s
  | Undefined => ""
  | Obj o =>
      match JSON_stringify o with
      | Some s => s
      | None => ""
      end
  end.

(** The text forms of all items with one space between neighbours. *)
Fixpoint spaceSeparated (cs : list (any object)) : string :=
  match cs with
  | [] => ""
  | c :: rest =>
      match rest with
      | [] => textForm c
      | _ :: _ => textForm c ++ " " ++ spaceSeparated rest
      end
  end.

(** What the generator yields for one chunk. *)
Definition fragmentOfChunk (chunk : ChatCompletionChunk.t)
  : GenerateContentResponse.t object :=
  convertOpenAIToGemini (completionOfChunk chunk).

(** The authentication modes [createContentGenerator] has a branch for. *)
Definition supported (a : option AuthType) : bool :=
  match a with
  | Some USE_DEEPSEEK | Some LOGIN_WITH_GOOGLE | Some CLOUD_SHELL => true
  | Some USE_GEMINI | Some USE_VERTEX_AI | None => false
  end.

(** The [model] of every request that a trace shows going to the service. *)
Definition modelsSent (trace : list Event) : list string :=
  flat_map
    (fun ev =>
       match ev with
       | CompletionsCreate _ body => [ChatCompletionCreateParams.model body]
       | NewOpenAI _ | CreateCodeAssist _ _ _ _ => []
       end)
    trace.

(** The clients and legacy transports that a trace shows being built. *)
Definition transportsCreated (trace : list Event) : list Event :=
  filter
    (fun ev =>
       match ev with
       | NewOpenAI _ | CreateCodeAssist _ _ _ _ => true
       | CompletionsCreate _ _ => false
       end)
    trace.

(** ** Rendering a request as text *)

(** How a template literal renders a value that is a string or
    [undefined]. *)
Definition templateText (x : option string) : string :=
  match x with
  | Some s => s
  | None => "undefined"
  end.

(** The line feed, ['\n']. *)
Definition newline : string := String "010" "".

Definition messageParamsToString
    (messages : list (ChatCompletionMessageParam.t object)) : string :=
  JS.join newline
    (map (fun msg =>
            Some (ChatCompletionMessageParam.role msg ++ ": "
                    ++ templateText
                         (stringOrJSON (ChatCompletionMessageParam.content msg))))
       messages).

(** ** Notions used to state further properties *)

(** The text that the first choice of a chunk adds, [''] when the chunk has
    no choice or the choice no text. *)
Definition firstDeltaContent (chunk : ChatCompletionChunk.t) : string :=
  match ChatCompletionChunk.choices chunk with
  | Some (choice :: _) =>
      match ChunkChoice.delta choice with
      | Some delta =>
          match Delta.content delta with
          | Some text => text
          | None => ""
          end
      | None => ""
      end
  | Some [] | None => ""
  end.

(** The lengths of the text forms of the items, added up. *)
Definition formLengths (cs : list (any object)) : nat :=
  list_sum (map (fun c => String.length (textForm c)) cs).

(** An environment variable that is set to something other than the empty
    string. *)
Definition setVariable (process : Process.t) (name : string) : option string :=
  match Process.env process name with
  | Some v => if String.eqb v "" then None else Some v
  | None => None
  end.

(** The [User-Agent] that [createContentGenerator] announces. *)
Definition userAgentOf (process : Process.t) : string :=
  "DeepSeekCLI/"
    ++ match setVariable process "CLI_VERSION" with
       | Some v => v
       | None => Process.version process
       end
    ++ " (" ++ Process.platform process ++ "; " ++ Process.arch process ++ ")".

(** ** Facts about the JavaScript operators *)

Lemma or_else_empty (x : option string) :
  JS.or_else x "" = match x with Some s => s | None => "" end.
Proof.
  destruct x as [s|]; simpl; trivial.
  unfold JS.truthy. destruct (String.eqb_spec s "") as [->|]; reflexivity.
Qed.

Lemma or_else_cases (x : option string) (d : string) :
  JS.or_else x d
  = match x with
    | Some s => if String.eqb s "" then d else s
    | None => d
    end.
Proof.
  destruct x as [s|]; simpl; trivial.
  unfold JS.truthy. destruct (String.eqb s ""); reflexivity.
Qed.

Lemma nth_error_map_from {A B : Type} (f : A -> nat -> B) (xs : list A) :
  forall start i,
    nth_error (JS.map_from f start xs) i
    = option_map (fun x => f x (start + i)%nat) (nth_error xs i).
Proof.
  induction xs as [|x rest IH]; intros start i.
  - destruct i; reflexivity.
  - destruct i as [|i]; simpl.
    + now rewrite Nat.add_0_r.
    + rewrite IH. now rewrite Nat.add_succ_r.
Qed.

Lemma length_map_from {A B : Type} (f : A -> nat -> B) (xs : list A) :
  forall start, length (JS.map_from f start xs) = length xs.
Proof.
  induction xs as [|x rest IH]; intros start; simpl; [reflexivity|].
  now rewrite IH.
Qed.

Lemma even_mod2 (i : nat) : Nat.eqb (i mod 2) 0 = Nat.even i.
Proof.
  rewrite <- Nat.bit0_mod, Nat.bit0_odd, <- Nat.negb_even.
  destruct (Nat.even i); reflexivity.
Qed.

(** ** The response adapter *)

Lemma convertOpenAIToGemini_choices (response : ChatCompletion.t) :
  option_map (@length _)
    (GenerateContentResponse.choices (convertOpenAIToGemini response))
  = option_map (@length _) (ChatCompletion.choices response).
Proof.
  unfold convertOpenAIToGemini; simpl.
  destruct (ChatCompletion.choices response) as [cs|]; simpl; trivial.
  now rewrite length_map.
Qed.

Lemma convertOpenAIToGemini_invariant (response : ChatCompletion.t) :
  textMatchesFirstChoice (convertOpenAIToGemini response).
Proof.
  unfold textMatchesFirstChoice, convertOpenAIToGemini; simpl.
  destruct (ChatCompletion.choices response) as [[|choice rest]|]; reflexivity.
Qed.

(** C1.  Whatever response the service gave, the legacy response built from
    it has as [text] the content of its first choice when it has one, and
    the empty string when its choices are empty (or missing); it has as many
    choices as the response of the service. *)
Theorem convertOpenAIToGemini_text (response : ChatCompletion.t) :
  textMatchesFirstChoice (convertOpenAIToGemini response)
  /\ option_map (@length _)
       (GenerateContentResponse.choices (convertOpenAIToGemini response))
     = option_map (@length _) (ChatCompletion.choices response).
Proof.
  split.
  - apply convertOpenAIToGemini_invariant.
  - apply convertOpenAIToGemini_choices.
Qed.

(** ** The stream reassembler *)

Lemma drain_enough (stream : list ChatCompletionChunk.t) :
  forall extra,
    drain (S (length stream) + extra) (convertStreamToGenerator stream)
    = Some (map fragmentOfChunk stream).
Proof.
  unfold convertStreamToGenerator.
  induction stream as [|chunk rest IH]; intros extra.
  - reflexivity.
  - change (S (length (chunk :: rest)) + extra)%nat
      with (S (S (length rest) + extra)).
    cbn [drain next]. now rewrite IH.
Qed.


(** C2.  A stream of N chunks makes the generator yield N fragments and then
    stop: a consumer gets them all with N+1 pulls, and more pulls change
    nothing.  Fragment number i is the response adapter applied to the
    completion built from chunk number i, and every fragment satisfies the
    structural invariant of a response that was not streamed. *)
Theorem convertStreamToGenerator_fragments (stream : list ChatCompletionChunk.t) :
  exists fragments : list (GenerateContentResponse.t object),
    (forall extra,
        drain (S (length stream) + extra) (convertStreamToGenerator stream)
        = Some fragments)
    /\ length fragments = length stream
    /\ (forall i,
          nth_error fragments i
          = option_map (fun chunk => convertOpenAIToGemini (completionOfChunk chunk))
              (nth_error stream i))
    /\ Forall textMatchesFirstChoice fragments.
Proof.
  exists (map fragmentOfChunk stream). repeat split.
  - apply drain_enough.
  - apply length_map.
  - intros i. apply nth_error_map.
  - apply Forall_forall. intros r Hr.
    apply in_map_iff in Hr. destruct Hr as [chunk [<- _]].
    apply convertOpenAIToGemini_invariant.
Qed.

(** ** The envelope built from a chunk *)

(** C9.  The completion built from a chunk has the chunk's [id], [model] and
    [created]; it has one choice per choice of the chunk, in order, whose
    message takes its role and content from the delta, with role
    ['assistant'] when the delta gives none (an empty role counts as none)
    and content [''] when the delta gives none; its usage is the chunk's, and
    three zeros when the chunk has none. *)
Theorem completionOfChunk_fields (chunk : ChatCompletionChunk.t) :
  let completion := completionOfChunk chunk in
  let given :=
    match ChatCompletionChunk.choices chunk with
    | Some cs => cs
    | None => []
    end in
  ChatCompletion.id completion = ChatCompletionChunk.id chunk
  /\ ChatCompletion.model completion = ChatCompletionChunk.model chunk
  /\ ChatCompletion.created completion = ChatCompletionChunk.created chunk
  /\ (exists built,
        ChatCompletion.choices completion = Some built
        /\ length built = length given
        /\ forall i,
             nth_error built i
             = option_map
                 (fun choice =>
                    Choice.mk
                      (ChunkChoice.index choice)
                      (Some
                         (ChatCompletionMessage.mk
                            (Some
                               match ChunkChoice.delta choice with
                               | Some (Delta.mk (Some r) _) =>
                                   if String.eqb r "" then "assistant" else r
                               | Some (Delta.mk None _) | None => "assistant"
                               end)
                            (Some
                               match ChunkChoice.delta choice with
                               | Some (Delta.mk _ (Some c)) => c
                               | Some (Delta.mk _ None) | None => ""
                               end)))
                      (ChunkChoice.finish_reason choice))
                 (nth_error given i))
  /\ ChatCompletion.usage completion
     = Some
         match ChatCompletionChunk.usage chunk with
         | Some u => u
         | None => CompletionUsage.mk 0 0 0
         end.
Proof.
  cbv zeta. unfold completionOfChunk; cbn [ChatCompletion.id ChatCompletion.model
    ChatCompletion.created ChatCompletion.choices ChatCompletion.usage].
  do 3 (split; [reflexivity|]). split.
  - eexists. split; [reflexivity|].
    destruct (ChatCompletionChunk.choices chunk) as [cs|]; cbn [option_map JS.or_object].
    + split; [apply length_map|].
      intros i. rewrite nth_error_map.
      destruct (nth_error cs i) as [choice|]; cbn [option_map]; trivial.
      do 3 f_equal.
      rewrite or_else_cases, or_else_empty.
      destruct (ChunkChoice.delta choice) as [[[r|] [c|]]|]; reflexivity.
    + split; [reflexivity|]. intros [|i]; reflexivity.
  - destruct (ChatCompletionChunk.usage chunk); reflexivity.
Qed.

(** ** The message normalizer *)

Lemma nth_error_mapi {A B : Type} (f : A -> nat -> B) (xs : list A) (i : nat) :
  nth_error (JS.mapi f xs) i = option_map (fun x => f x i) (nth_error xs i).
Proof. unfold JS.mapi. now rewrite nth_error_map_from. Qed.

(** C3.  When a request has no [messages] but has [contents], the messages
    sent are as many as the contents; the one at index i has role ['user']
    for an even i and ['assistant'] for an odd i, and as content the item
    itself when it is a string and its [JSON.stringify] otherwise.  Three
    items give the roles user, assistant, user. *)
Theorem convertGeminiToOpenAI_contents_parity (this_model : string)
    (request : GenerateContentParameters.t object) (cs : list (any object)) :
  GenerateContentParameters.messages request = None ->
  GenerateContentParameters.contents request = Some cs ->
  let out :=
    ChatCompletionCreateParams.messages (convertGeminiToOpenAI this_model request) in
  length out = length cs
  /\ (forall i content,
        nth_error cs i = Some content ->
        nth_error out i
        = Some
            (ChatCompletionMessageParam.mk object
               (if Nat.even i then "user" else "assistant")
               match content with
               | Str s => Str s
               | Undefined => Undefined
               | Obj o =>
                   match JSON_stringify o with
                   | Some json => Str json
                   | None => Undefined
                   end
               end))
  /\ (forall a b c,
        cs = [a; b; c] ->
        map ChatCompletionMessageParam.role out = ["user"; "assistant"; "user"]).
Proof.
  intros Hmessages Hcontents out. subst out.
  unfold convertGeminiToOpenAI. rewrite Hmessages, Hcontents.
  cbn [ChatCompletionCreateParams.messages].
  split; [|split].
  - apply length_map_from.
  - intros i content Hi. rewrite nth_error_mapi, Hi. cbn [option_map].
    rewrite even_mod2. do 2 f_equal.
    destruct content as [|s|o]; trivial.
  - intros a b c ->. reflexivity.
Qed.

(** C4.  When a request has [messages], the messages sent are those, as they
    are. *)
Theorem convertGeminiToOpenAI_messages_verbatim (this_model : string)
    (request : GenerateContentParameters.t object)
    (ms : list (ChatCompletionMessageParam.t object)) :
  GenerateContentParameters.messages request = Some ms ->
  ChatCompletionCreateParams.messages (convertGeminiToOpenAI this_model request)
  = ms.
Proof.
  intros Hmessages. unfold convertGeminiToOpenAI. now rewrite Hmessages.
Qed.

(** ** The token estimator *)

Lemma join_spaceSeparated (cs : list (any object)) :
  JS.join " " (map stringOrJSON cs) = spaceSeparated cs.
Proof.
  assert (Hform : forall c, JS.or_object (stringOrJSON c) "" = textForm c).
  { intros [|s|o]; trivial. }
  unfold JS.join.
  induction cs as [|c rest IH]; [reflexivity|].
  destruct rest as [|c' rest'].
  - apply Hform.
  - change (spaceSeparated (c :: c' :: rest'))
      with (textForm c ++ " " ++ spaceSeparated (c' :: rest')).
    rewrite <- IH, <- Hform. reflexivity.
Qed.

Lemma Math_ceil_quarter (n : Z) :
  JS.Math_ceil (inject_Z n / 4) = ((n + 3) / 4)%Z.
Proof.
  unfold JS.Math_ceil, Qceiling, Qfloor, Qdiv, Qmult, Qinv, Qopp, inject_Z.
  cbn [Qnum Qden Z.sgn]. change (Z.pos (1 * 4)) with 4%Z.
  rewrite Z.mul_1_r.
  pose proof (Z.div_mod (- n) 4). pose proof (Z.mod_pos_bound (- n) 4).
  pose proof (Z.div_mod (n + 3) 4). pose proof (Z.mod_pos_bound (n + 3) 4).
  lia.
Qed.

(** C5.  The estimate is the ceiling of a quarter of the length L of the
    text forms of the contents joined with single spaces: it is the one
    integer n with 4(n-1) < L <= 4n, that is (L+3) div 4.  The contents
    ["abcd", "efgh"] join to "abcd efgh", of length 9, and give 3. *)
Theorem countTokens_ceil_quarter (request : CountTokensParameters.t object) :
  let joined :=
    match CountTokensParameters.contents request with
    | Some cs => spaceSeparated cs
    | None => ""
    end in
  let L := Z.of_nat (String.length joined) in
  let n := CountTokensResponse.totalTokens (countTokens request) in
  (4 * (n - 1) < L <= 4 * n)%Z
  /\ n = ((L + 3) / 4)%Z
  /\ spaceSeparated [Str "abcd"; Str "efgh"] = "abcd efgh"
  /\ String.length "abcd efgh" = 9%nat
  /\ (forall model,
        countTokens
          (CountTokensParameters.mk object model (Some [Str "abcd"; Str "efgh"]))
        = CountTokensResponse.mk 3).
Proof.
  cbv zeta.
  assert (Hn : CountTokensResponse.totalTokens (countTokens request)
               = ((Z.of_nat
                     (String.length
                        match CountTokensParameters.contents request with
                        | Some cs => spaceSeparated cs
                        | None => ""
                        end) + 3) / 4)%Z).
  { unfold countTokens. cbn [CountTokensResponse.totalTokens].
    rewrite Math_ceil_quarter.
    destruct (CountTokensParameters.contents request) as [cs|]; trivial.
    now rewrite join_spaceSeparated. }
  rewrite Hn.
  set (L := Z.of_nat _).
  split; [|split; [reflexivity|split; [reflexivity|split; [reflexivity|]]]].
  - pose proof (Z.div_mod (L + 3) 4). pose proof (Z.mod_pos_bound (L + 3) 4). lia.
  - intros model. reflexivity.
Qed.

(** ** The embedding stub *)

(** C8.  [embedContent] answers every request, and the embedding it answers
    with has 1536 elements, each of them zero. *)
Theorem embedContent_zero_vector (request : EmbedContentParameters.t object) :
  length (EmbedContentResponse.embedding (embedContent request)) = 1536%nat
  /\ Forall (fun x => x = 0%Z) (EmbedContentResponse.embedding (embedContent request)).
Proof.
  unfold embedContent, JS.Array_fill. cbn [EmbedContentResponse.embedding].
  split.
  - apply repeat_length.
  - apply Forall_forall. intros x Hx. exact (repeat_spec _ _ _ Hx).
Qed.

(** ** The factory *)

Lemma interpolate_unsupported_inj (a b : option AuthType) :
  supported a = false -> supported b = false ->
  AuthTypes.interpolate a = AuthTypes.interpolate b -> a = b.
Proof.
  destruct a as [[]|], b as [[]|]; simpl; intros Ha Hb H;
    try discriminate; reflexivity.
Qed.

(** With a key, the DeepSeek mode builds exactly one client, from that key,
    and a generator around it. *)
Lemma createContentGenerator_deepseek (process : Process.t)
    (config : ContentGeneratorConfig.t) (gcConfig : Config)
    (sessionId : option string) (key : string) :
  ContentGeneratorConfig.authType config = Some USE_DEEPSEEK ->
  ContentGeneratorConfig.apiKey config = Some key ->
  key <> "" ->
  exists client,
    OpenAI.apiKey client = key
    /\ createContentGenerator process config gcConfig sessionId
       = ([NewOpenAI client],
          inr (DeepSeek
                 (DeepSeekContentGenerator.mk Config client gcConfig
                    (ContentGeneratorConfig.model config)))).
Proof.
  intros Hauth Hkey Hne. unfold createContentGenerator.
  rewrite Hauth, Hkey. cbn [AuthTypes.strictEq AuthTypes.eqb].
  unfold JS.truthy. destruct (String.eqb_spec key "") as [|_]; [contradiction|].
  cbn [negb]. eexists. split; [|reflexivity]. reflexivity.
Qed.

(** C6.  In the DeepSeek mode without an API key, [createContentGenerator]
    throws the error that asks for the key, and it has built no client and
    no other transport by then: its trace is empty. *)
Theorem createContentGenerator_missing_key (process : Process.t)
    (config : ContentGeneratorConfig.t) (gcConfig : Config)
    (sessionId : option string) :
  ContentGeneratorConfig.authType config = Some USE_DEEPSEEK ->
  ContentGeneratorConfig.apiKey config = None ->
  Effect.outcome (createContentGenerator process config gcConfig sessionId)
  = inl (mkError "DeepSeek API key is required. Please set DEEPSEEK_API_KEY environment variable.")
  /\ Effect.trace (createContentGenerator process config gcConfig sessionId) = []
  /\ transportsCreated
       (Effect.trace (createContentGenerator process config gcConfig sessionId))
     = [].
Proof.
  intros Hauth Hkey. unfold createContentGenerator.
  rewrite Hauth, Hkey. repeat split.
Qed.

(** C7.  For an authentication mode that has no branch,
    [createContentGenerator] throws an error whose message ends with the
    mode, and its trace is empty: nothing was built.  Two such modes never
    share a message. *)
Theorem createContentGenerator_unsupported (process : Process.t)
    (config : ContentGeneratorConfig.t) (gcConfig : Config)
    (sessionId : option string) :
  supported (ContentGeneratorConfig.authType config) = false ->
  Effect.outcome (createContentGenerator process config gcConfig sessionId)
  = inl (mkError
           ("Error creating contentGenerator: Unsupported authType: "
              ++ AuthTypes.interpolate (ContentGeneratorConfig.authType config)))
  /\ Effect.trace (createContentGenerator process config gcConfig sessionId) = []
  /\ (forall config' gcConfig' sessionId',
        supported (ContentGeneratorConfig.authType config') = false ->
        Effect.outcome (createContentGenerator process config' gcConfig' sessionId')
        = Effect.outcome (createContentGenerator process config gcConfig sessionId) ->
        ContentGeneratorConfig.authType config'
        = ContentGeneratorConfig.authType config).
Proof.
  assert (Hthrow : forall c g s,
             supported (ContentGeneratorConfig.authType c) = false ->
             createContentGenerator process c g s
             = ([], inl (mkError
                           ("Error creating contentGenerator: Unsupported authType: "
                              ++ AuthTypes.interpolate
                                   (ContentGeneratorConfig.authType c))))).
  { intros c g s Hc. unfold createContentGenerator.
    destruct (ContentGeneratorConfig.authType c) as [[]|];
      try discriminate Hc; reflexivity. }
  intros Hmode. rewrite Hthrow by assumption.
  split; [reflexivity|split; [reflexivity|]].
  intros config' gcConfig' sessionId' Hmode' Hsame.
  rewrite Hthrow in Hsame by assumption. cbn [Effect.outcome snd] in Hsame.
  injection Hsame as Hsame.
  now apply interpolate_unsupported_inj.
Qed.

(** ** The model that goes to the service *)

Lemma convertGeminiToOpenAI_model (this_model : string)
    (request : GenerateContentParameters.t object) :
  ChatCompletionCreateParams.model (convertGeminiToOpenAI this_model request)
  = match GenerateContentParameters.model request with
    | Some m => if String.eqb m "" then this_model else m
    | None => this_model
    end.
Proof. unfold convertGeminiToOpenAI. apply or_else_cases. Qed.

Lemma modelsSent_generateContent (this : DeepSeekContentGenerator.t Config)
    (request : GenerateContentParameters.t object) (userPromptId : string) :
  modelsSent (Effect.trace (generateContent this request userPromptId))
  = [ChatCompletionCreateParams.model
       (convertGeminiToOpenAI (DeepSeekContentGenerator.model this) request)].
Proof.
  unfold generateContent, create, Effect.perform, Effect.bind.
  destruct (completions _ _); reflexivity.
Qed.

Lemma modelsSent_generateContentStream (this : DeepSeekContentGenerator.t Config)
    (request : GenerateContentParameters.t object) (userPromptId : string) :
  modelsSent (Effect.trace (generateContentStream this request userPromptId))
  = [ChatCompletionCreateParams.model
       (convertGeminiToOpenAI (DeepSeekContentGenerator.model this) request)].
Proof.
  unfold generateContentStream, createStream, Effect.perform, Effect.bind.
  destruct (completionsStream _ _); reflexivity.
Qed.

(** C10.  When the [model] of a request is the empty string, the one request
    that [generateContent] sends to the service, and the one that
    [generateContentStream] sends, carry the model the generator was
    configured with; the request that is sent is the one that would be sent
    if [model] were absent. *)
Theorem empty_model_uses_default (this : DeepSeekContentGenerator.t Config)
    (request : GenerateContentParameters.t object) (userPromptId : string) :
  GenerateContentParameters.model request = Some "" ->
  modelsSent (Effect.trace (generateContent this request userPromptId))
  = [DeepSeekContentGenerator.model this]
  /\ modelsSent (Effect.trace (generateContentStream this request userPromptId))
     = [DeepSeekContentGenerator.model this]
  /\ convertGeminiToOpenAI (DeepSeekContentGenerator.model this) request
     = convertGeminiToOpenAI (DeepSeekContentGenerator.model this)
         (GenerateContentParameters.without_model request).
Proof.
  intros Hmodel.
  rewrite modelsSent_generateContent, modelsSent_generateContentStream.
  rewrite convertGeminiToOpenAI_model, Hmodel. cbn [String.eqb].
  split; [reflexivity|split; [reflexivity|]].
  unfold convertGeminiToOpenAI. rewrite Hmodel. reflexivity.
Qed.

(** The model of a configuration built by [createContentGeneratorConfig] is
    never empty, so neither is the default of a generator made from it. *)
Lemma createContentGeneratorConfig_model (process : Process.t)
    (config : Config) (authType : option AuthType) :
  ContentGeneratorConfig.model (createContentGeneratorConfig process config authType)
  <> "".
Proof.
  assert (Hmodel : JS.or_else (Some (getModel config)) DEFAULT_DEEPSEEK_MODEL <> "").
  { rewrite or_else_cases.
    destruct (String.eqb_spec (getModel config) "") as [|Hne];
      [discriminate|exact Hne]. }
  unfold createContentGeneratorConfig.
  repeat match goal with
         | |- context [match ?x with _ => _ end] => destruct x
         end; exact Hmodel.
Qed.

(** ** More on the message normalizer *)

Lemma map_from_nil {A B : Type} (f : A -> nat -> B) (start : nat) (xs : list A) :
  JS.map_from f start xs = [] -> xs = [].
Proof. destruct xs; [reflexivity|discriminate]. Qed.

Lemma Forall_map_from {A B : Type} (P : B -> Prop) (f : A -> nat -> B)
    (xs : list A) :
  (forall x index, P (f x index)) ->
  forall start, Forall P (JS.map_from f start xs).
Proof.
  intros Hf. induction xs as [|x rest IH]; intros start; cbn [JS.map_from];
    constructor; auto.
Qed.

(** X1.  The request that goes out has no message at all exactly when the
    caller gave an empty [messages] array, or gave no [messages] and an empty
    [contents] array; the greeting is only put in when both are missing. *)
Theorem convertGeminiToOpenAI_no_messages_iff (this_model : string)
    (request : GenerateContentParameters.t object) :
  ChatCompletionCreateParams.messages (convertGeminiToOpenAI this_model request)
  = []
  <-> (GenerateContentParameters.messages request = Some []
       \/ (GenerateContentParameters.messages request = None
           /\ GenerateContentParameters.contents request = Some [])).
Proof.
  unfold convertGeminiToOpenAI. cbn [ChatCompletionCreateParams.messages].
  destruct (GenerateContentParameters.messages request) as [ms|].
  - split.
    + intros ->. now left.
    + intros [H|[H _]]; [now injection H|discriminate H].
  - destruct (GenerateContentParameters.contents request) as [cs|].
    + split.
      * intros H. apply map_from_nil in H. subst cs. right. now split.
      * intros [H|[_ H]]; [discriminate H|]. injection H as ->. reflexivity.
    + split.
      * discriminate.
      * intros [H|[_ H]]; discriminate H.
Qed.

(** X2.  Without [messages], whatever the contents are, every message that
    goes out has role ['user'] or ['assistant'] and a content that is a
    string or [undefined]: no structured value reaches the service. *)
Theorem convertGeminiToOpenAI_flat_contents (this_model : string)
    (request : GenerateContentParameters.t object) :
  GenerateContentParameters.messages request = None ->
  Forall
    (fun msg =>
       (ChatCompletionMessageParam.role msg = "user"
        \/ ChatCompletionMessageParam.role msg = "assistant")
       /\ match ChatCompletionMessageParam.content msg with
          | Obj _ => False
          | Str _ | Undefined => True
          end)
    (ChatCompletionCreateParams.messages (convertGeminiToOpenAI this_model request)).
Proof.
  intros Hmessages. unfold convertGeminiToOpenAI. rewrite Hmessages.
  cbn [ChatCompletionCreateParams.messages].
  destruct (GenerateContentParameters.contents request) as [cs|].
  - apply Forall_map_from. intros c index.
    cbn [ChatCompletionMessageParam.role ChatCompletionMessageParam.content].
    split.
    + destruct (Nat.eqb (index mod 2) 0); [now left|now right].
    + destruct c as [|s|o]; cbn [stringOrJSON ofText]; trivial.
      destruct (JSON_stringify o); exact I.
  - repeat constructor.
Qed.

(** ** More on the calls that reach the service *)

Lemma generateContent_run (this : DeepSeekContentGenerator.t Config)
    (request : GenerateContentParameters.t object) (userPromptId : string) :
  generateContent this request userPromptId
  = ([CompletionsCreate (DeepSeekContentGenerator.openai this)
        (ChatCompletionCreateParams.with_stream
           (convertGeminiToOpenAI (DeepSeekContentGenerator.model this) request)
           false)],
     match completions (DeepSeekContentGenerator.openai this)
             (ChatCompletionCreateParams.with_stream
                (convertGeminiToOpenAI (DeepSeekContentGenerator.model this) request)
                false)
     with
     | inl e => inl e
     | inr response => inr (convertOpenAIToGemini response)
     end).
Proof.
  unfold generateContent, create, Effect.perform, Effect.bind.
  destruct (completions _ _); reflexivity.
Qed.

Lemma generateContentStream_run (this : DeepSeekContentGenerator.t Config)
    (request : GenerateContentParameters.t object) (userPromptId : string) :
  generateContentStream this request userPromptId
  = ([CompletionsCreate (DeepSeekContentGenerator.openai this)
        (ChatCompletionCreateParams.with_stream
           (convertGeminiToOpenAI (DeepSeekContentGenerator.model this) request)
           true)],
     match completionsStream (DeepSeekContentGenerator.openai this)
             (ChatCompletionCreateParams.with_stream
                (convertGeminiToOpenAI (DeepSeekContentGenerator.model this) request)
                true)
     with
     | inl e => inl e
     | inr stream => inr (convertStreamToGenerator stream)
     end).
Proof.
  unfold generateContentStream, createStream, Effect.perform, Effect.bind.
  destruct (completionsStream _ _); reflexivity.
Qed.

(** X3.  A request that names a model other than the empty string gets that
    model, not the generator's own, in the one request [generateContent]
    sends and in the one [generateContentStream] sends. *)
Theorem named_model_overrides_default (this : DeepSeekContentGenerator.t Config)
    (request : GenerateContentParameters.t object) (userPromptId : string)
    (name : string) :
  GenerateContentParameters.model request = Some name ->
  name <> "" ->
  modelsSent (Effect.trace (generateContent this request userPromptId)) = [name]
  /\ modelsSent (Effect.trace (generateContentStream this request userPromptId))
     = [name].
Proof.
  intros Hmodel Hname.
  rewrite modelsSent_generateContent, modelsSent_generateContentStream.
  rewrite convertGeminiToOpenAI_model, Hmodel.
  destruct (String.eqb_spec name "") as [|_]; [contradiction|].
  split; reflexivity.
Qed.

(** X4.  Whatever the service answers, [generateContent] calls it exactly
    once, on the generator's own client, with [stream: false], and
    [generateContentStream] exactly once with [stream: true]; in both the
    [max_tokens] and [temperature] of the caller go out untouched, absent
    when the caller gave none. *)
Theorem one_call_per_request (this : DeepSeekContentGenerator.t Config)
    (request : GenerateContentParameters.t object) (userPromptId : string) :
  (exists body,
      Effect.trace (generateContent this request userPromptId)
      = [CompletionsCreate (DeepSeekContentGenerator.openai this) body]
      /\ ChatCompletionCreateParams.stream body = Some false
      /\ ChatCompletionCreateParams.max_tokens body
         = GenerateContentParameters.max_tokens request
      /\ ChatCompletionCreateParams.temperature body
         = GenerateContentParameters.temperature request)
  /\ (exists body,
        Effect.trace (generateContentStream this request userPromptId)
        = [CompletionsCreate (DeepSeekContentGenerator.openai this) body]
        /\ ChatCompletionCreateParams.stream body = Some true
        /\ ChatCompletionCreateParams.max_tokens body
           = GenerateContentParameters.max_tokens request
        /\ ChatCompletionCreateParams.temperature body
           = GenerateContentParameters.temperature request).
Proof.
  rewrite generateContent_run, generateContentStream_run.
  split; eexists; (split; [reflexivity|]); repeat split.
Qed.

(** X5.  When the service fails, [generateContent] fails with the very error
    of the service: it neither wraps it nor tries again. *)
Theorem generateContent_propagates (this : DeepSeekContentGenerator.t Config)
    (request : GenerateContentParameters.t object) (userPromptId : string)
    (e : Error) :
  completions (DeepSeekContentGenerator.openai this)
    (ChatCompletionCreateParams.with_stream
       (convertGeminiToOpenAI (DeepSeekContentGenerator.model this) request)
       false)
  = inl e ->
  Effect.outcome (generateContent this request userPromptId) = inl e
  /\ length (Effect.trace (generateContent this request userPromptId)) = 1%nat.
Proof.
  intros Hfail. rewrite generateContent_run, Hfail. split; reflexivity.
Qed.

(** X6.  When the service fails to open a stream, [generateContentStream]
    fails with the very error of the service and hands out no generator. *)
Theorem generateContentStream_propagates (this : DeepSeekContentGenerator.t Config)
    (request : GenerateContentParameters.t object) (userPromptId : string)
    (e : Error) :
  completionsStream (DeepSeekContentGenerator.openai this)
    (ChatCompletionCreateParams.with_stream
       (convertGeminiToOpenAI (DeepSeekContentGenerator.model this) request)
       true)
  = inl e ->
  Effect.outcome (generateContentStream this request userPromptId) = inl e
  /\ length (Effect.trace (generateContentStream this request userPromptId))
     = 1%nat.
Proof.
  intros Hfail. rewrite generateContentStream_run, Hfail. split; reflexivity.
Qed.

(** X7.  When the service answers, [generateContent] returns a legacy
    response that keeps the answer whole in [data], satisfies the structural
    invariant, and has no function calls, no executable code and no code
    execution result. *)
Theorem generateContent_answer (this : DeepSeekContentGenerator.t Config)
    (request : GenerateContentParameters.t object) (userPromptId : string)
    (response : ChatCompletion.t) :
  completions (DeepSeekContentGenerator.openai this)
    (ChatCompletionCreateParams.with_stream
       (convertGeminiToOpenAI (DeepSeekContentGenerator.model this) request)
       false)
  = inr response ->
  exists r,
    Effect.outcome (generateContent this request userPromptId) = inr r
    /\ GenerateContentResponse.data r = response
    /\ textMatchesFirstChoice r
    /\ GenerateContentResponse.functionCalls r = []
    /\ GenerateContentResponse.executableCode r = None
    /\ GenerateContentResponse.codeExecutionResult r = None.
Proof.
  intros Hanswer. rewrite generateContent_run, Hanswer.
  eexists. split; [reflexivity|].
  split; [reflexivity|]. split; [apply convertOpenAIToGemini_invariant|].
  repeat split.
Qed.


(** ** More on the response adapter and the stream *)

(** X9.  The choices of the legacy response are those of the service's
    response, one for one and in order (none when the service gave none):
    each keeps its [finish_reason], takes the content of its message, ['']
    when that is missing or [null], and the role of its message,
    ['assistant'] when that is missing or empty. *)
Theorem convertOpenAIToGemini_choicewise (response : ChatCompletion.t) :
  GenerateContentResponse.choices (convertOpenAIToGemini response)
  = option_map
      (map (fun choice =>
              ResponseChoice.mk
                (ResponseMessage.mk
                   match Choice.message choice with
                   | Some (ChatCompletionMessage.mk _ (Some c)) => c
                   | Some (ChatCompletionMessage.mk _ None) | None => ""
                   end
                   match Choice.message choice with
                   | Some (ChatCompletionMessage.mk (Some r) _) =>
                       if String.eqb r "" then "assistant" else r
                   | Some (ChatCompletionMessage.mk None _) | None => "assistant"
                   end)
                (Choice.finish_reason choice)))
      (ChatCompletion.choices response).
Proof.
  unfold convertOpenAIToGemini. cbn [GenerateContentResponse.choices].
  destruct (ChatCompletion.choices response) as [cs|]; cbn [option_map]; trivial.
  f_equal. apply map_ext. intros choice.
  rewrite or_else_empty, or_else_cases.
  destruct (Choice.message choice) as [[[r|] [c|]]|]; reflexivity.
Qed.

Lemma fragment_text (chunk : ChatCompletionChunk.t) :
  GenerateContentResponse.text (fragmentOfChunk chunk) = firstDeltaContent chunk.
Proof.
  unfold fragmentOfChunk, convertOpenAIToGemini, completionOfChunk, firstDeltaContent.
  cbn [GenerateContentResponse.text ChatCompletion.choices].
  destruct (ChatCompletionChunk.choices chunk) as [[|choice rest]|]; trivial.
  cbn [option_map map JS.or_object JS.first JS.chain hd_error Choice.message
         ChatCompletionMessage.content].
  rewrite or_else_empty, or_else_empty.
  destruct (ChunkChoice.delta choice) as [[r [c|]]|]; reflexivity.
Qed.

(** X10.  Reassembly: the texts of the fragments that the generator yields,
    put end to end, are the delta contents of the first choices of the
    chunks put end to end; a chunk without a choice or without content adds
    nothing. *)
Theorem streamed_text_reassembles (stream : list ChatCompletionChunk.t) :
  exists fragments,
    drain (S (length stream)) (convertStreamToGenerator stream) = Some fragments
    /\ String.concat "" (map GenerateContentResponse.text fragments)
       = String.concat "" (map firstDeltaContent stream).
Proof.
  exists (map fragmentOfChunk stream). split.
  - rewrite <- (Nat.add_0_r (S (length stream))). apply drain_enough.
  - rewrite map_map. f_equal. apply map_ext. apply fragment_text.
Qed.

(** X11.  A fragment made from a chunk always has a [choices] array, with
    one choice per choice of the chunk and none for a chunk without
    [choices], every one with a role that is not empty; and the completion it
    keeps in [data] always has its usage.  (A response that was not streamed
    and lacks [choices] gives a legacy response without [choices].) *)
Theorem fragment_always_has_choices (chunk : ChatCompletionChunk.t) :
  (exists cs,
      GenerateContentResponse.choices
        (convertOpenAIToGemini (completionOfChunk chunk))
      = Some cs
      /\ length cs
         = match ChatCompletionChunk.choices chunk with
           | Some given => length given
           | None => O
           end
      /\ Forall
           (fun c => ResponseMessage.role (ResponseChoice.message c) <> "") cs)
  /\ ChatCompletion.usage
       (GenerateContentResponse.data
          (convertOpenAIToGemini (completionOfChunk chunk)))
     <> None
  /\ (forall response,
        ChatCompletion.choices response = None ->
        GenerateContentResponse.choices
          (convertOpenAIToGemini response)
        = None).
Proof.
  split; [|split].
  - unfold convertOpenAIToGemini, completionOfChunk.
    cbn [GenerateContentResponse.choices ChatCompletion.choices option_map].
    eexists. split; [reflexivity|]. split.
    + rewrite length_map.
      destruct (ChatCompletionChunk.choices chunk) as [given|];
        cbn [option_map JS.or_object]; [apply length_map|reflexivity].
    + apply Forall_forall. intros c Hc.
      apply in_map_iff in Hc. destruct Hc as [envelope [<- Henvelope]].
      cbn [ResponseChoice.message ResponseMessage.role].
      destruct (ChatCompletionChunk.choices chunk) as [given|];
        cbn [option_map JS.or_object] in Henvelope; [|destruct Henvelope].
      apply in_map_iff in Henvelope. destruct Henvelope as [choice [<- _]].
      cbn [Choice.message JS.chain ChatCompletionMessage.role].
      rewrite !or_else_cases.
      destruct (JS.chain (ChunkChoice.delta choice) Delta.role) as [r|];
        [|discriminate].
      destruct (String.eqb_spec r "") as [->|Hr]; cbn [String.eqb];
        [discriminate|].
      destruct (String.eqb_spec r "") as [|_]; [contradiction|exact Hr].
  - unfold convertOpenAIToGemini, completionOfChunk.
    cbn [GenerateContentResponse.data ChatCompletion.usage]. discriminate.
  - intros response Hnone. unfold convertOpenAIToGemini.
    cbn [GenerateContentResponse.choices]. now rewrite Hnone.
Qed.

(** ** More on the token estimator *)

Lemma length_append (a b : string) :
  String.length (a ++ b) = (String.length a + String.length b)%nat.
Proof. induction a as [|ch a IH]; simpl; [reflexivity|now rewrite IH]. Qed.

Lemma length_spaceSeparated (c : any object) (rest : list (any object)) :
  String.length (spaceSeparated (c :: rest))
  = (formLengths (c :: rest) + length rest)%nat.
Proof.
  unfold formLengths. revert c.
  induction rest as [|c' rest' IH]; intros c.
  - simpl. lia.
  - change (spaceSeparated (c :: c' :: rest'))
      with (textForm c ++ " " ++ spaceSeparated (c' :: rest')).
    rewrite !length_append, IH. simpl. lia.
Qed.

Lemma countTokens_total (model : string) (cs : option (list (any object))) :
  CountTokensResponse.totalTokens
    (countTokens (CountTokensParameters.mk object model cs))
  = ((Z.of_nat
        (String.length
           match cs with
           | Some items => spaceSeparated items
           | None => ""
           end) + 3) / 4)%Z.
Proof.
  unfold countTokens.
  cbn [CountTokensResponse.totalTokens CountTokensParameters.contents].
  rewrite Math_ceil_quarter. destruct cs as [items|]; trivial.
  now rewrite join_spaceSeparated.
Qed.

(** X12.  For n >= 1 items the estimate is the ceiling of a quarter of the
    lengths of their text forms added up plus the n-1 separators: the spaces
    between the items are counted like text. *)
Theorem countTokens_counts_separators (model : string) (c : any object)
    (rest : list (any object)) :
  CountTokensResponse.totalTokens
    (countTokens (CountTokensParameters.mk object model (Some (c :: rest))))
  = ((Z.of_nat (formLengths (c :: rest)) + Z.of_nat (length rest) + 3) / 4)%Z.
Proof.
  rewrite countTokens_total, length_spaceSeparated. f_equal. lia.
Qed.

(** X13.  The estimate is zero exactly when there is no text at all: no
    [contents], an empty array, or one item whose text form is empty.  Two
    items always give at least one token, even two empty strings. *)
Theorem countTokens_zero_iff (model : string) (cs : option (list (any object))) :
  CountTokensResponse.totalTokens
    (countTokens (CountTokensParameters.mk object model cs)) = 0%Z
  <-> match cs with
      | None | Some [] => True
      | Some [c] => textForm c = ""
      | Some (_ :: _ :: _) => False
      end.
Proof.
  rewrite countTokens_total.
  assert (Hzero : forall n : nat, ((Z.of_nat n + 3) / 4 = 0)%Z <-> n = O).
  { intros n. split.
    - intros H. pose proof (Z.div_mod (Z.of_nat n + 3) 4).
      pose proof (Z.mod_pos_bound (Z.of_nat n + 3) 4). lia.
    - intros ->. reflexivity. }
  rewrite Hzero.
  destruct cs as [[|c [|c' rest]]|].
  - split; trivial.
  - cbn [spaceSeparated]. split.
    + intros H. destruct (textForm c); [reflexivity|discriminate H].
    + intros ->. reflexivity.
  - rewrite length_spaceSeparated. cbn [length]. split; [lia|contradiction].
  - split; trivial.
Qed.

Lemma formLengths_app (cs more : list (any object)) :
  formLengths (cs ++ more) = (formLengths cs + formLengths more)%nat.
Proof. unfold formLengths. now rewrite map_app, list_sum_app. Qed.

Lemma length_spaceSeparated_app (cs more : list (any object)) :
  (String.length (spaceSeparated cs)
   <= String.length (spaceSeparated (cs ++ more)))%nat.
Proof.
  destruct cs as [|c rest]; [simpl; lia|].
  change ((c :: rest) ++ more)%list with (c :: (rest ++ more))%list.
  rewrite !length_spaceSeparated.
  change (c :: (rest ++ more))%list with ((c :: rest) ++ more)%list.
  rewrite formLengths_app, length_app. lia.
Qed.

(** X14.  More contents never lower the estimate: the estimate for a
    sequence of items is at most the estimate for the sequence with further
    items after it. *)
Theorem countTokens_monotone (model model' : string)
    (cs more : list (any object)) :
  (CountTokensResponse.totalTokens
     (countTokens (CountTokensParameters.mk object model (Some cs)))
   <= CountTokensResponse.totalTokens
        (countTokens
           (CountTokensParameters.mk object model' (Some (cs ++ more)%list))))%Z.
Proof.
  rewrite !countTokens_total.
  apply Z.div_le_mono; [lia|].
  pose proof (length_spaceSeparated_app cs more). lia.
Qed.

(** ** More on the configuration and the factory *)

Lemma or_undefined_setVariable (process : Process.t) (name : string) :
  JS.or_undefined (Process.env process name) = setVariable process name.
Proof.
  unfold JS.or_undefined, setVariable, JS.truthy.
  destruct (Process.env process name) as [v|]; trivial.
  destruct (String.eqb v ""); reflexivity.
Qed.

Lemma or_undefined_idem (x : option string) :
  JS.or_undefined (JS.or_undefined x) = JS.or_undefined x.
Proof.
  destruct x as [v|]; trivial. simpl.
  destruct (JS.truthy v) eqn:Hv; simpl; [now rewrite Hv|reflexivity].
Qed.

Lemma createContentGeneratorConfig_apiKey (process : Process.t) (config : Config)
    (authType : option AuthType) :
  ContentGeneratorConfig.apiKey
    (createContentGeneratorConfig process config authType)
  = match authType with
    | Some USE_DEEPSEEK => setVariable process "DEEPSEEK_API_KEY"
    | Some USE_GEMINI => setVariable process "GEMINI_API_KEY"
    | Some LOGIN_WITH_GOOGLE | Some USE_VERTEX_AI | Some CLOUD_SHELL | None => None
    end.
Proof.
  unfold createContentGeneratorConfig, JS.and_then.
  rewrite !or_undefined_idem, !or_undefined_setVariable.
  destruct authType as [[]|]; cbn [AuthTypes.strictEq AuthTypes.eqb orb];
    try reflexivity.
  - destruct (setVariable process "DEEPSEEK_API_KEY"); reflexivity.
  - destruct (setVariable process "GEMINI_API_KEY"); reflexivity.
Qed.

Lemma createContentGeneratorConfig_rest (process : Process.t) (config : Config)
    (authType : option AuthType) :
  ContentGeneratorConfig.model (createContentGeneratorConfig process config authType)
  = (if String.eqb (getModel config) "" then DEFAULT_DEEPSEEK_MODEL
     else getModel config)
  /\ ContentGeneratorConfig.baseURL
       (createContentGeneratorConfig process config authType)
     = Some "https://api.deepseek.com"
  /\ ContentGeneratorConfig.authType
       (createContentGeneratorConfig process config authType)
     = authType
  /\ ContentGeneratorConfig.proxy
       (createContentGeneratorConfig process config authType)
     = getProxy config.
Proof.
  unfold createContentGeneratorConfig. rewrite or_else_cases.
  repeat match goal with
         | |- context [match ?x with _ => _ end] => destruct x
         end; repeat split.
Qed.

(** X15.  The configuration carries an API key in two cases only: in the
    DeepSeek mode it is [DEEPSEEK_API_KEY], in the Gemini mode
    [GEMINI_API_KEY], each only when set to something other than the empty
    string.  No other mode gets a key, and neither mode takes the other's
    variable. *)
Theorem createContentGeneratorConfig_key_by_mode (process : Process.t)
    (config : Config) (authType : option AuthType) :
  ContentGeneratorConfig.apiKey
    (createContentGeneratorConfig process config authType)
  = match authType with
    | Some USE_DEEPSEEK =>
        match Process.env process "DEEPSEEK_API_KEY" with
        | Some key => if String.eqb key "" then None else Some key
        | None => None
        end
    | Some USE_GEMINI =>
        match Process.env process "GEMINI_API_KEY" with
        | Some key => if String.eqb key "" then None else Some key
        | None => None
        end
    | Some LOGIN_WITH_GOOGLE | Some USE_VERTEX_AI | Some CLOUD_SHELL | None => None
    end.
Proof.
  unfold createContentGeneratorConfig, JS.and_then, JS.or_undefined, JS.truthy.
  destruct authType as [[]|]; cbn [AuthTypes.strictEq AuthTypes.eqb orb];
    try reflexivity.
  - destruct (Process.env process "DEEPSEEK_API_KEY") as [key|]; trivial.
    destruct (String.eqb key "") eqn:Hkey; cbn [negb]; trivial.
    now rewrite Hkey.
  - destruct (Process.env process "GEMINI_API_KEY") as [key|]; trivial.
    destruct (String.eqb key "") eqn:Hkey; cbn [negb]; trivial.
    now rewrite Hkey.
Qed.

(** X16.  Whatever the mode and the environment, the configuration has the
    model of the session, or ['deepseek-chat'] when that is empty, so its
    model is never empty; its base URL is the DeepSeek one, and the mode and
    the proxy are passed on as given. *)
Theorem createContentGeneratorConfig_fields (process : Process.t)
    (config : Config) (authType : option AuthType) :
  ContentGeneratorConfig.model (createContentGeneratorConfig process config authType)
  = (if String.eqb (getModel config) "" then "deepseek-chat" else getModel config)
  /\ ContentGeneratorConfig.model
       (createContentGeneratorConfig process config authType)
     <> ""
  /\ ContentGeneratorConfig.baseURL
       (createContentGeneratorConfig process config authType)
     = Some "https://api.deepseek.com"
  /\ ContentGeneratorConfig.authType
       (createContentGeneratorConfig process config authType)
     = authType
  /\ ContentGeneratorConfig.proxy
       (createContentGeneratorConfig process config authType)
     = getProxy config.
Proof.
  destruct (createContentGeneratorConfig_rest process config authType)
    as (Hmodel & Hurl & Hauth & Hproxy).
  split; [exact Hmodel|]. split; [|auto].
  rewrite Hmodel.
  destruct (String.eqb_spec (getModel config) "") as [|Hne];
    [discriminate|exact Hne].
Qed.

Lemma userAgent_eq (process : Process.t) :
  "DeepSeekCLI/"
    ++ JS.or_else (Process.env process "CLI_VERSION") (Process.version process)
    ++ " (" ++ Process.platform process ++ "; " ++ Process.arch process ++ ")"
  = userAgentOf process.
Proof.
  unfold userAgentOf, setVariable. rewrite or_else_cases.
  destruct (Process.env process "CLI_VERSION") as [v|]; trivial.
  destruct (String.eqb v ""); reflexivity.
Qed.

Lemma createContentGenerator_deepseek_run (process : Process.t)
    (config : ContentGeneratorConfig.t) (gcConfig : Config)
    (sessionId : option string) :
  ContentGeneratorConfig.authType config = Some USE_DEEPSEEK ->
  createContentGenerator process config gcConfig sessionId
  = match ContentGeneratorConfig.apiKey config with
    | Some key =>
        if String.eqb key "" then
          ([], inl (mkError "DeepSeek API key is required. Please set DEEPSEEK_API_KEY environment variable."))
        else
          ([NewOpenAI
              (OpenAI.mk key (ContentGeneratorConfig.baseURL config)
                 [("User-Agent", userAgentOf process)])],
           inr (DeepSeek
                  (DeepSeekContentGenerator.mk Config
                     (OpenAI.mk key (ContentGeneratorConfig.baseURL config)
                        [("User-Agent", userAgentOf process)])
                     gcConfig (ContentGeneratorConfig.model config))))
    | None =>
        ([], inl (mkError "DeepSeek API key is required. Please set DEEPSEEK_API_KEY environment variable."))
    end.
Proof.
  intros Hauth. unfold createContentGenerator.
  rewrite Hauth, userAgent_eq. cbn [AuthTypes.strictEq AuthTypes.eqb].
  destruct (ContentGeneratorConfig.apiKey config) as [key|]; trivial.
  unfold JS.truthy. destruct (String.eqb key ""); reflexivity.
Qed.

Lemma createContentGenerator_legacy_run (process : Process.t)
    (config : ContentGeneratorConfig.t) (gcConfig : Config)
    (sessionId : option string) :
  ContentGeneratorConfig.authType config = Some LOGIN_WITH_GOOGLE
  \/ ContentGeneratorConfig.authType config = Some CLOUD_SHELL ->
  createContentGenerator process config gcConfig sessionId
  = ([CreateCodeAssist (HttpOptions.mk [("User-Agent", userAgentOf process)])
        (ContentGeneratorConfig.authType config) gcConfig sessionId],
     match createCodeAssistContentGenerator
             (HttpOptions.mk [("User-Agent", userAgentOf process)])
             (ContentGeneratorConfig.authType config) gcConfig sessionId
     with
     | inl e => inl e
     | inr wrapped => inr (Logging wrapped gcConfig)
     end).
Proof.
  intros Hauth. unfold createContentGenerator. rewrite userAgent_eq.
  destruct Hauth as [Hauth|Hauth]; rewrite Hauth;
    cbn [AuthTypes.strictEq AuthTypes.eqb orb];
    unfold Effect.bind, Effect.perform;
    destruct (createCodeAssistContentGenerator _ _ _ _); reflexivity.
Qed.

Lemma createContentGenerator_unsupported_run (process : Process.t)
    (config : ContentGeneratorConfig.t) (gcConfig : Config)
    (sessionId : option string) :
  supported (ContentGeneratorConfig.authType config) = false ->
  createContentGenerator process config gcConfig sessionId
  = ([], inl (mkError
                ("Error creating contentGenerator: Unsupported authType: "
                   ++ AuthTypes.interpolate (ContentGeneratorConfig.authType config)))).
Proof.
  intros Hmode. unfold createContentGenerator.
  destruct (ContentGeneratorConfig.authType config) as [[]|];
    try discriminate Hmode; reflexivity.
Qed.

(** X17.  From the environment to the generator, in the DeepSeek mode: when
    [DEEPSEEK_API_KEY] is set and not empty, one client is built, with that
    key, the DeepSeek base URL and the announced [User-Agent], and the
    generator around it has the model of the configuration; otherwise
    nothing is built and the error asks for the key.  [GEMINI_API_KEY] plays
    no part. *)
Theorem deepseek_generator_from_environment (process : Process.t)
    (config gcConfig : Config) (sessionId : option string) :
  createContentGenerator process
    (createContentGeneratorConfig process config (Some USE_DEEPSEEK))
    gcConfig sessionId
  = match Process.env process "DEEPSEEK_API_KEY" with
    | Some (String ch key) =>
        ([NewOpenAI
            (OpenAI.mk (String ch key) (Some "https://api.deepseek.com")
               [("User-Agent", userAgentOf process)])],
         inr (DeepSeek
                (DeepSeekContentGenerator.mk Config
                   (OpenAI.mk (String ch key) (Some "https://api.deepseek.com")
                      [("User-Agent", userAgentOf process)])
                   gcConfig
                   (if String.eqb (getModel config) "" then "deepseek-chat"
                    else getModel config))))
    | Some "" | None =>
        ([], inl (mkError "DeepSeek API key is required. Please set DEEPSEEK_API_KEY environment variable."))
    end.
Proof.
  destruct (createContentGeneratorConfig_rest process config (Some USE_DEEPSEEK))
    as (Hmodel & Hurl & Hauth & _).
  rewrite createContentGenerator_deepseek_run by exact Hauth.
  rewrite createContentGeneratorConfig_apiKey, Hmodel, Hurl.
  unfold setVariable.
  destruct (Process.env process "DEEPSEEK_API_KEY") as [[|ch key]|]; reflexivity.
Qed.

(** X18.  A configuration made for a mode without a branch is always turned
    down by the factory, with nothing built, whatever the environment holds:
    in particular the Gemini mode, for which the configuration does pick up
    [GEMINI_API_KEY], never yields a generator. *)
Theorem unsupported_mode_from_environment (process : Process.t)
    (config gcConfig : Config) (sessionId : option string)
    (authType : option AuthType) :
  supported authType = false ->
  createContentGenerator process
    (createContentGeneratorConfig process config authType) gcConfig sessionId
  = ([], inl (mkError
                ("Error creating contentGenerator: Unsupported authType: "
                   ++ AuthTypes.interpolate authType))).
Proof.
  intros Hmode.
  destruct (createContentGeneratorConfig_rest process config authType)
    as (_ & _ & Hauth & _).
  rewrite createContentGenerator_unsupported_run; rewrite Hauth; trivial.
Qed.

(** X19.  In the DeepSeek mode an API key that is the empty string counts as
    no key: the factory throws the error that asks for the key and builds
    nothing. *)
Theorem createContentGenerator_empty_key (process : Process.t)
    (config : ContentGeneratorConfig.t) (gcConfig : Config)
    (sessionId : option string) :
  ContentGeneratorConfig.authType config = Some USE_DEEPSEEK ->
  ContentGeneratorConfig.apiKey config = Some "" ->
  createContentGenerator process config gcConfig sessionId
  = ([], inl (mkError "DeepSeek API key is required. Please set DEEPSEEK_API_KEY environment variable.")).
Proof.
  intros Hauth Hkey.
  rewrite createContentGenerator_deepseek_run by exact Hauth.
  now rewrite Hkey.
Qed.

(** X20.  In the DeepSeek mode with a key, the factory builds exactly one
    client, from the key and the base URL of the configuration and with the
    single header [User-Agent: DeepSeekCLI/<version> (<platform>; <arch>)],
    the version being [CLI_VERSION] when set and not empty and the version of
    the runtime otherwise; the generator holds that client, the session
    configuration and the model of the configuration. *)
Theorem createContentGenerator_deepseek_client (process : Process.t)
    (config : ContentGeneratorConfig.t) (gcConfig : Config)
    (sessionId : option string) (key : string) :
  ContentGeneratorConfig.authType config = Some USE_DEEPSEEK ->
  ContentGeneratorConfig.apiKey config = Some key ->
  key <> "" ->
  let client :=
    OpenAI.mk key (ContentGeneratorConfig.baseURL config)
      [("User-Agent",
        "DeepSeekCLI/"
          ++ match Process.env process "CLI_VERSION" with
             | Some (String ch v) => String ch v
             | Some "" | None => Process.version process
             end
          ++ " (" ++ Process.platform process ++ "; "
          ++ Process.arch process ++ ")")] in
  createContentGenerator process config gcConfig sessionId
  = ([NewOpenAI client],
     inr (DeepSeek
            (DeepSeekContentGenerator.mk Config client gcConfig
               (ContentGeneratorConfig.model config)))).
Proof.
  intros Hauth Hkey Hne client. subst client.
  rewrite createContentGenerator_deepseek_run by exact Hauth.
  rewrite Hkey. destruct (String.eqb_spec key "") as [|_]; [contradiction|].
  unfold userAgentOf, setVariable.
  destruct (Process.env process "CLI_VERSION") as [[|ch v]|]; reflexivity.
Qed.

(** X21.  In the Google login and Cloud Shell modes the factory builds no
    OpenAI client and needs no API key: it asks the code-assist factory once,
    with the announced [User-Agent], the mode, the session configuration and
    the session id, and returns its generator wrapped for logging, or fails
    with its error. *)
Theorem createContentGenerator_legacy (process : Process.t)
    (config : ContentGeneratorConfig.t) (gcConfig : Config)
    (sessionId : option string) :
  ContentGeneratorConfig.authType config = Some LOGIN_WITH_GOOGLE
  \/ ContentGeneratorConfig.authType config = Some CLOUD_SHELL ->
  Effect.trace (createContentGenerator process config gcConfig sessionId)
  = [CreateCodeAssist (HttpOptions.mk [("User-Agent", userAgentOf process)])
       (ContentGeneratorConfig.authType config) gcConfig sessionId]
  /\ Effect.outcome (createContentGenerator process config gcConfig sessionId)
     = match createCodeAssistContentGenerator
               (HttpOptions.mk [("User-Agent", userAgentOf process)])
               (ContentGeneratorConfig.authType config) gcConfig sessionId
       with
       | inl e => inl e
       | inr wrapped => inr (Logging wrapped gcConfig)
       end.
Proof.
  intros Hauth. rewrite createContentGenerator_legacy_run by exact Hauth.
  split; reflexivity.
Qed.

(** X22.  The factory never builds an OpenAI client outside the DeepSeek
    mode, and never one without a key: a client in its trace was built from
    the key of the configuration, which is not empty, and its base URL. *)
Theorem createContentGenerator_client_only_with_key (process : Process.t)
    (config : ContentGeneratorConfig.t) (gcConfig : Config)
    (sessionId : option string) (client : OpenAI.t) :
  In (NewOpenAI client)
    (Effect.trace (createContentGenerator process config gcConfig sessionId)) ->
  ContentGeneratorConfig.authType config = Some USE_DEEPSEEK
  /\ ContentGeneratorConfig.apiKey config = Some (OpenAI.apiKey client)
  /\ OpenAI.apiKey client <> ""
  /\ OpenAI.baseURL client = ContentGeneratorConfig.baseURL config.
Proof.
  intros Hin.
  destruct (ContentGeneratorConfig.authType config) as [mode|] eqn:Hauth.
  - destruct mode.
    + rewrite createContentGenerator_deepseek_run in Hin by exact Hauth.
      destruct (ContentGeneratorConfig.apiKey config) as [key|];
        [|destruct Hin].
      destruct (String.eqb_spec key "") as [|Hne]; [destruct Hin|].
      destruct Hin as [Hin|[]]. injection Hin as <-.
      cbn [OpenAI.apiKey OpenAI.baseURL]. auto.
    + rewrite createContentGenerator_legacy_run in Hin by (now left).
      destruct Hin as [Hin|[]]. discriminate Hin.
    + rewrite createContentGenerator_unsupported_run in Hin
        by (now rewrite Hauth).
      destruct Hin.
    + rewrite createContentGenerator_unsupported_run in Hin
        by (now rewrite Hauth).
      destruct Hin.
    + rewrite createContentGenerator_legacy_run in Hin by (now right).
      destruct Hin as [Hin|[]]. discriminate Hin.
  - rewrite createContentGenerator_unsupported_run in Hin
      by (now rewrite Hauth).
    destruct Hin.
Qed.

(** X25.  A DeepSeek generator that the factory made from a configuration
    built by [createContentGeneratorConfig] never sends an empty model name
    to the service, whatever model the request names or omits, in
    [generateContent] and in [generateContentStream]. *)
Theorem configured_generator_sends_a_model (process : Process.t)
    (config gcConfig : Config) (sessionId : option string)
    (authType : option AuthType) (g : DeepSeekContentGenerator.t Config)
    (request : GenerateContentParameters.t object) (userPromptId : string) :
  Effect.outcome
    (createContentGenerator process
       (createContentGeneratorConfig process config authType) gcConfig sessionId)
  = inr (DeepSeek g) ->
  Forall (fun name => name <> "")
    (modelsSent (Effect.trace (generateContent g request userPromptId)))
  /\ Forall (fun name => name <> "")
       (modelsSent (Effect.trace (generateContentStream g request userPromptId))).
Proof.
  intros Hmade.
  assert (Hmodel : DeepSeekContentGenerator.model g <> "").
  { destruct (createContentGeneratorConfig_rest process config authType)
      as (Hmodel & _ & Hauth & _).
    destruct authType as [[]|].
    - rewrite createContentGenerator_deepseek_run in Hmade by exact Hauth.
      destruct (ContentGeneratorConfig.apiKey _) as [key|]; [|discriminate Hmade].
      destruct (String.eqb key ""); [discriminate Hmade|].
      cbn [Effect.outcome snd] in Hmade. injection Hmade as <-.
      cbn [DeepSeekContentGenerator.model]. rewrite Hmodel.
      destruct (String.eqb_spec (getModel config) "") as [|Hne];
        [discriminate|exact Hne].
    - rewrite createContentGenerator_legacy_run in Hmade
        by (left; exact Hauth).
      cbn [Effect.outcome snd] in Hmade.
      destruct (createCodeAssistContentGenerator _ _ _ _); discriminate Hmade.
    - rewrite createContentGenerator_unsupported_run in Hmade
        by (now rewrite Hauth).
      discriminate Hmade.
    - rewrite createContentGenerator_unsupported_run in Hmade
        by (now rewrite Hauth).
      discriminate Hmade.
    - rewrite createContentGenerator_legacy_run in Hmade
        by (right; exact Hauth).
      cbn [Effect.outcome snd] in Hmade.
      destruct (createCodeAssistContentGenerator _ _ _ _); discriminate Hmade.
    - rewrite createContentGenerator_unsupported_run in Hmade
        by (now rewrite Hauth).
      discriminate Hmade. }
  rewrite modelsSent_generateContent, modelsSent_generateContentStream.
  rewrite convertGeminiToOpenAI_model.
  assert (Hsent : match GenerateContentParameters.model request with
                  | Some m =>
                      if String.eqb m "" then DeepSeekContentGenerator.model g
                      else m
                  | None => DeepSeekContentGenerator.model g
                  end <> "").
  { destruct (GenerateContentParameters.model request) as [m|]; [|exact Hmodel].
    destruct (String.eqb_spec m "") as [|Hne]; [exact Hmodel|exact Hne]. }
  split; repeat constructor; exact Hsent.
Qed.

(** ** Rendering messages as text *)




(** X24.  No message gives the empty text, and one message gives its role, a
    colon and a space, and then its content: a string as it is, without
    quotes, any other value as its JSON text, and the word [undefined] when
    there is no content or it has no JSON text. *)
Theorem messageParamsToString_line (role : string) (content : any object) :
  messageParamsToString [] = ""
  /\ messageParamsToString [ChatCompletionMessageParam.mk object role content]
     = role ++ ": "
         ++ match content with
            | Str s => s
            | Undefined => "undefined"
            | Obj o =>
                match JSON_stringify o with
                | Some json => json
                | None => "undefined"
                end
            end.
Proof.
  split; [reflexivity|].
  unfold messageParamsToString, JS.join. cbn [map String.concat JS.or_object].
  cbn [ChatCompletionMessageParam.role ChatCompletionMessageParam.content].
  destruct content as [|s|o]; cbn [stringOrJSON templateText]; trivial.
Qed.

End Adapter.

(** ** The theorems at work on concrete inputs *)

Example convertOpenAIToGemini_sample :
  GenerateContentResponse.text
    (convertOpenAIToGemini (object := Sample.value) Sample.completion) = "Hi"
  /\ GenerateContentResponse.choices
       (convertOpenAIToGemini (object := Sample.value) Sample.completion)
     = Some [ResponseChoice.mk (ResponseMessage.mk "Hi" "assistant") (Some "stop")].
Proof. split; reflexivity. Qed.

Example convertOpenAIToGemini_null_content :
  GenerateContentResponse.text
    (convertOpenAIToGemini (object := Sample.value)
       (ChatCompletion.mk "c" "chat.completion" 0 "m"
          (Some [Choice.mk 0 (Some (ChatCompletionMessage.mk None None)) None])
          None))
  = "".
Proof. reflexivity. Qed.

Example drain_sample :
  option_map (map GenerateContentResponse.text)
    (drain (object := Sample.value) 4 (convertStreamToGenerator Sample.chunks))
  = Some [""; "Hi"; ""]
  /\ drain (object := Sample.value) 3 (convertStreamToGenerator Sample.chunks)
     = None.
Proof. split; reflexivity. Qed.

Example completionOfChunk_sample :
  option_map (completionOfChunk) (nth_error Sample.chunks 1)
  = Some
      (ChatCompletion.mk "cmpl-1" "chat.completion" 1700000000 "deepseek-chat"
         (Some [Choice.mk 0
                  (Some (ChatCompletionMessage.mk (Some "assistant") (Some "Hi")))
                  None])
         (Some (CompletionUsage.mk 0 0 0))).
Proof. reflexivity. Qed.

Example convertGeminiToOpenAI_sample :
  convertGeminiToOpenAI Sample.stringify "deepseek-chat" Sample.contentsRequest
  = ChatCompletionCreateParams.mk Sample.value
      [ChatCompletionMessageParam.mk Sample.value "user" (Str "hi");
       ChatCompletionMessageParam.mk Sample.value "assistant" (Str "{}");
       ChatCompletionMessageParam.mk Sample.value "user" (Str "bye")]
      "deepseek-chat" None None None.
Proof. reflexivity. Qed.

Example convertGeminiToOpenAI_default_message :
  ChatCompletionCreateParams.messages
    (convertGeminiToOpenAI Sample.stringify "deepseek-chat" Sample.emptyModelRequest)
  = [ChatCompletionMessageParam.mk Sample.value "user" (Str "Hello")].
Proof. reflexivity. Qed.

Example countTokens_sample :
  countTokens Sample.stringify
    (CountTokensParameters.mk Sample.value "deepseek-chat"
       (Some [Str "abcd"; Obj Sample.AFunction; Obj Sample.Null]))
  = CountTokensResponse.mk 3
  /\ countTokens Sample.stringify
       (CountTokensParameters.mk Sample.value "deepseek-chat" (Some []))
     = CountTokensResponse.mk 0.
Proof. split; reflexivity. Qed.

Example createContentGenerator_sample :
  createContentGenerator (object := Sample.value) Sample.createCodeAssist
    Sample.process Sample.configWithKey tt None
  = ([NewOpenAI Sample.client], inr (DeepSeek Sample.generator)).
Proof. reflexivity. Qed.

Example generateContent_sample :
  generateContent Sample.stringify Sample.completions Sample.generator
    Sample.messagesRequest "prompt-1"
  = ([CompletionsCreate Sample.client
        (ChatCompletionCreateParams.mk Sample.value
           [ChatCompletionMessageParam.mk Sample.value "system" (Str "Be brief.");
            ChatCompletionMessageParam.mk Sample.value "user" (Str "Hello")]
           "deepseek-reasoner" (Some 50%Z) None (Some false))],
     inr (convertOpenAIToGemini Sample.completion)).
Proof. reflexivity. Qed.

Lemma convertGeminiToOpenAI_contents_parity_witness :
  GenerateContentParameters.messages Sample.contentsRequest = None
  /\ map ChatCompletionMessageParam.role
       (ChatCompletionCreateParams.messages
          (convertGeminiToOpenAI Sample.stringify "deepseek-chat"
             Sample.contentsRequest))
     = ["user"; "assistant"; "user"].
Proof.
  split; [reflexivity|].
  pose proof (convertGeminiToOpenAI_contents_parity Sample.stringify
                "deepseek-chat" Sample.contentsRequest
                [Str "hi"; Obj Sample.EmptyObject; Str "bye"]
                eq_refl eq_refl) as H.
  cbv zeta in H. destruct H as (_ & _ & H).
  exact (H _ _ _ eq_refl).
Defined.

Lemma convertGeminiToOpenAI_messages_verbatim_witness :
  ChatCompletionCreateParams.messages
    (convertGeminiToOpenAI Sample.stringify "deepseek-chat" Sample.messagesRequest)
  = [ChatCompletionMessageParam.mk Sample.value "system" (Str "Be brief.");
     ChatCompletionMessageParam.mk Sample.value "user" (Str "Hello")].
Proof.
  apply (convertGeminiToOpenAI_messages_verbatim Sample.stringify "deepseek-chat"
           Sample.messagesRequest).
  reflexivity.
Defined.

Lemma createContentGenerator_missing_key_witness :
  ContentGeneratorConfig.apiKey Sample.configWithoutKey = None
  /\ Effect.trace
       (createContentGenerator (object := Sample.value) Sample.createCodeAssist
          Sample.process Sample.configWithoutKey tt None)
     = [].
Proof.
  split; [reflexivity|].
  apply (createContentGenerator_missing_key (object := Sample.value)
           Sample.createCodeAssist Sample.process Sample.configWithoutKey tt None);
    reflexivity.
Defined.

Lemma createContentGenerator_unsupported_witness :
  supported (ContentGeneratorConfig.authType Sample.vertexConfig) = false
  /\ Effect.outcome
       (createContentGenerator (object := Sample.value) Sample.createCodeAssist
          Sample.process Sample.vertexConfig tt None)
     = inl (mkError "Error creating contentGenerator: Unsupported authType: vertex-ai").
Proof.
  split; [reflexivity|].
  apply (createContentGenerator_unsupported (object := Sample.value)
           Sample.createCodeAssist Sample.process Sample.vertexConfig tt None).
  reflexivity.
Defined.

Lemma empty_model_uses_default_witness :
  GenerateContentParameters.model Sample.emptyModelRequest = Some ""
  /\ modelsSent
       (Effect.trace
          (generateContent Sample.stringify Sample.completions Sample.generator
             Sample.emptyModelRequest "prompt-1"))
     = ["deepseek-chat"].
Proof.
  split; [reflexivity|].
  apply (empty_model_uses_default Sample.stringify Sample.completions
           Sample.completionsStream Sample.generator Sample.emptyModelRequest
           "prompt-1").
  reflexivity.
Defined.

Example messageParamsToString_sample :
  messageParamsToString Sample.stringify
    [ChatCompletionMessageParam.mk Sample.value "system" (Str "Be brief.");
     ChatCompletionMessageParam.mk Sample.value "user" (Obj Sample.EmptyArray);
     ChatCompletionMessageParam.mk Sample.value "assistant" Undefined]
  = "system: Be brief." ++ newline ++ "user: []" ++ newline
      ++ "assistant: undefined".
Proof. reflexivity. Qed.

Example createContentGeneratorConfig_sample :
  createContentGeneratorConfig Sample.getModel Sample.getProxy
    Sample.processWithKeys tt (Some USE_GEMINI)
  = ContentGeneratorConfig.mk "deepseek-chat" (Some "g-test")
      (Some "https://api.deepseek.com") (Some USE_GEMINI) None.
Proof. reflexivity. Qed.

Lemma convertGeminiToOpenAI_flat_contents_witness :
  Forall
    (fun msg =>
       (ChatCompletionMessageParam.role msg = "user"
        \/ ChatCompletionMessageParam.role msg = "assistant")
       /\ match ChatCompletionMessageParam.content msg with
          | Obj _ => False
          | Str _ | Undefined => True
          end)
    (ChatCompletionCreateParams.messages
       (convertGeminiToOpenAI Sample.stringify "deepseek-chat"
          Sample.contentsRequest)).
Proof.
  apply (convertGeminiToOpenAI_flat_contents Sample.stringify "deepseek-chat"
           Sample.contentsRequest).
  reflexivity.
Defined.

Lemma named_model_overrides_default_witness :
  modelsSent
    (Effect.trace
       (generateContent Sample.stringify Sample.completions Sample.generator
          Sample.reasonerRequest "prompt-1"))
  = ["deepseek-reasoner"].
Proof.
  apply (named_model_overrides_default Sample.stringify Sample.completions
           Sample.completionsStream Sample.generator Sample.reasonerRequest
           "prompt-1" "deepseek-reasoner").
  - reflexivity.
  - discriminate.
Defined.

Lemma generateContent_propagates_witness :
  Effect.outcome
    (generateContent Sample.stringify Sample.completionsRefused Sample.generator
       Sample.contentsRequest "prompt-1")
  = inl Sample.refused.
Proof.
  apply (generateContent_propagates Sample.stringify Sample.completionsRefused
           Sample.generator Sample.contentsRequest "prompt-1" Sample.refused).
  reflexivity.
Defined.

Lemma generateContentStream_propagates_witness :
  Effect.outcome
    (generateContentStream Sample.stringify Sample.completionsStreamRefused
       Sample.generator Sample.contentsRequest "prompt-1")
  = inl Sample.refused.
Proof.
  apply (generateContentStream_propagates Sample.stringify
           Sample.completionsStreamRefused Sample.generator
           Sample.contentsRequest "prompt-1" Sample.refused).
  reflexivity.
Defined.

Lemma generateContent_answer_witness :
  exists r,
    Effect.outcome
      (generateContent Sample.stringify Sample.completions Sample.generator
         Sample.contentsRequest "prompt-1")
    = inr r
    /\ GenerateContentResponse.data r = Sample.completion
    /\ textMatchesFirstChoice r
    /\ GenerateContentResponse.functionCalls r = []
    /\ GenerateContentResponse.executableCode r = None
    /\ GenerateContentResponse.codeExecutionResult r = None.
Proof.
  apply (generateContent_answer Sample.stringify Sample.completions
           Sample.generator Sample.contentsRequest "prompt-1" Sample.completion).
  reflexivity.
Defined.


Lemma unsupported_mode_from_environment_witness :
  ContentGeneratorConfig.apiKey
    (createContentGeneratorConfig Sample.getModel Sample.getProxy
       Sample.processWithKeys tt (Some USE_GEMINI))
  = Some "g-test"
  /\ createContentGenerator (object := Sample.value) Sample.createCodeAssist
       Sample.processWithKeys
       (createContentGeneratorConfig Sample.getModel Sample.getProxy
          Sample.processWithKeys tt (Some USE_GEMINI))
       tt None
     = ([], inl (mkError "Error creating contentGenerator: Unsupported authType: gemini-api-key")).
Proof.
  split; [reflexivity|].
  apply (unsupported_mode_from_environment (object := Sample.value)
           Sample.getModel Sample.getProxy Sample.createCodeAssist
           Sample.processWithKeys tt tt None (Some USE_GEMINI)).
  reflexivity.
Defined.

Lemma createContentGenerator_empty_key_witness :
  ContentGeneratorConfig.apiKey Sample.configWithEmptyKey = Some ""
  /\ createContentGenerator (object := Sample.value) Sample.createCodeAssist
       Sample.process Sample.configWithEmptyKey tt None
     = ([], inl (mkError "DeepSeek API key is required. Please set DEEPSEEK_API_KEY environment variable.")).
Proof.
  split; [reflexivity|].
  apply (createContentGenerator_empty_key (object := Sample.value)
           Sample.createCodeAssist Sample.process Sample.configWithEmptyKey
           tt None);
    reflexivity.
Defined.

Lemma createContentGenerator_deepseek_client_witness :
  createContentGenerator (object := Sample.value) Sample.createCodeAssist
    Sample.process Sample.configWithKey tt None
  = ([NewOpenAI Sample.client], inr (DeepSeek Sample.generator)).
Proof.
  apply (createContentGenerator_deepseek_client (object := Sample.value)
           Sample.createCodeAssist Sample.process Sample.configWithKey tt None
           "sk-test").
  - reflexivity.
  - reflexivity.
  - discriminate.
Defined.

Lemma createContentGenerator_legacy_witness :
  Effect.trace
    (createContentGenerator (object := Sample.value) Sample.createCodeAssist
       Sample.process Sample.googleConfig tt (Some "session-1"))
  = [CreateCodeAssist
       (HttpOptions.mk [("User-Agent", "DeepSeekCLI/v20.11.0 (linux; x64)")])
       (Some LOGIN_WITH_GOOGLE) tt (Some "session-1")]
  /\ Effect.outcome
       (createContentGenerator (object := Sample.value) Sample.createCodeAssist
          Sample.process Sample.googleConfig tt (Some "session-1"))
     = inr (Logging tt tt).
Proof.
  apply (createContentGenerator_legacy (object := Sample.value)
           Sample.createCodeAssist Sample.process Sample.googleConfig tt
           (Some "session-1")).
  left. reflexivity.
Defined.

Lemma createContentGenerator_client_only_with_key_witness :
  ContentGeneratorConfig.authType Sample.configWithKey = Some USE_DEEPSEEK
  /\ ContentGeneratorConfig.apiKey Sample.configWithKey
     = Some (OpenAI.apiKey Sample.client)
  /\ OpenAI.apiKey Sample.client <> ""
  /\ OpenAI.baseURL Sample.client
     = ContentGeneratorConfig.baseURL Sample.configWithKey.
Proof.
  apply (createContentGenerator_client_only_with_key (object := Sample.value)
           Sample.createCodeAssist Sample.process Sample.configWithKey tt None
           Sample.client).
  left. reflexivity.
Defined.

Lemma configured_generator_sends_a_model_witness :
  Forall (fun name => name <> "")
    (modelsSent
       (Effect.trace
          (generateContent Sample.stringify Sample.completions Sample.generator
             Sample.emptyModelRequest "prompt-1")))
  /\ Forall (fun name => name <> "")
       (modelsSent
          (Effect.trace
             (generateContentStream Sample.stringify Sample.completionsStream
                Sample.generator Sample.emptyModelRequest "prompt-1"))).
Proof.
  apply (configured_generator_sends_a_model Sample.stringify Sample.getModel
           Sample.getProxy Sample.createCodeAssist Sample.completions
           Sample.completionsStream Sample.processWithKeys tt tt None
           (Some USE_DEEPSEEK) Sample.generator Sample.emptyModelRequest
           "prompt-1").
  reflexivity.
Defined.
